(** * jetstream/experimenter.py: a shallow embedding and its verified properties

    The module fetches two JSON arrays from the Experimenter service,
    decodes every element into an intermediate record ([ExperimentV1] or
    [ExperimentV6]), converts it to the common [Experiment] record and
    offers filters over the resulting [ExperimentCollection].

    Layout of this file:
    - [Py]: the Python values the code manipulates (decoded JSON, exceptions)
      and the builtins it applies to them;
    - [Datetime]: timestamps, [datetime.fromisoformat], the clock;
    - [Cattr]: the structuring rules of [cattr.Converter];
    - the classes and functions of experimenter.py, under their own names;
    - lemmas and the properties of the specification. *)

From Stdlib Require Import ZArith List String Ascii Bool Lia DecimalString.
Import ListNotations.

Set Warnings "-register-all".

Open Scope Z_scope.
Open Scope list_scope.
Open Scope string_scope.

(* ================================================================== *)
(** ** Python values and builtins *)

Module Py.

(** Exception classes raised on the paths the module exercises.  The
    handlers of the module are all [except Exception], which catches every
    one of them. *)
Inductive exn : Type :=
| KeyError (key : string)
| TypeError
| ValueError
| AttributeError
| Exception (msg : string).

Inductive result (A : Type) : Type :=
| Ok (a : A)
| Raise (e : exn).
Arguments Ok {A} a.
Arguments Raise {A} e.

Definition rbind {A B} (r : result A) (k : A -> result B) : result B :=
  match r with
  | Ok a => k a
  | Raise e => Raise e
  end.

Definition is_ok {A} (r : result A) : bool :=
  match r with Ok _ => true | Raise _ => false end.

(** What [Response.json()] returns.  JSON numbers are the integer ones
    (Python [int]); a [dict] keeps its keys in insertion order. *)
Inductive json : Type :=
| JNull
| JBool (b : bool)
| JInt (n : Z)
| JStr (s : string)
| JArr (items : list json)
| JObj (fields : list (string * json)).

Fixpoint lookup (key : string) (fields : list (string * json)) : option json :=
  match fields with
  | [] => None
  | (k, v) :: rest => if String.eqb k key then Some v else lookup key rest
  end.

(** [obj[key]] with a [str] key. *)
Definition getitem (obj : json) (key : string) : result json :=
  match obj with
  | JObj fields =>
      match lookup key fields with
      | Some v => Ok v
      | None => Raise (KeyError key)
      end
  | _ => Raise TypeError
  end.

Fixpoint chars (s : string) : list ascii :=
  match s with
  | EmptyString => []
  | String c r => c :: chars r
  end.

(** [for x in obj]: a list yields its items, a dict its keys, a string its
    characters; the other values are not iterable. *)
Definition iter (obj : json) : result (list json) :=
  match obj with
  | JArr items => Ok items
  | JObj fields => Ok (map (fun kv => JStr (fst kv)) fields)
  | JStr s => Ok (map (fun c => JStr (String c EmptyString)) (chars s))
  | _ => Raise TypeError
  end.

(** [bool(obj)]. *)
Definition truthy (obj : json) : bool :=
  match obj with
  | JNull => false
  | JBool b => b
  | JInt n => negb (Z.eqb n 0)
  | JStr s => negb (String.eqb s "")
  | JArr items => match items with [] => false | _ => true end
  | JObj fields => match fields with [] => false | _ => true end
  end.

(** [a == "literal"] for a decoded value [a]. *)
Definition eq_str (obj : json) (lit : string) : bool :=
  match obj with
  | JStr s => String.eqb s lit
  | _ => false
  end.

(** *** [repr] and [str] *)

Definition dquote : ascii := ascii_of_nat 34.
Definition squote : ascii := ascii_of_nat 39.
Definition backslash : ascii := ascii_of_nat 92.

Definition hexdig (n : nat) : ascii :=
  match String.get n "0123456789abcdef" with
  | Some c => c
  | None => "0"%char
  end.

Definition one (c : ascii) : string := String c EmptyString.

(** One character of [repr(str)]; bytes above 127 are kept as they are. *)
Definition repr_char (quote c : ascii) : string :=
  let n := nat_of_ascii c in
  if Ascii.eqb c backslash then String backslash (one backslash)
  else if Ascii.eqb c quote then String backslash (one quote)
  else if Nat.eqb n 9 then String backslash "t"
  else if Nat.eqb n 10 then String backslash "n"
  else if Nat.eqb n 13 then String backslash "r"
  else if orb (Nat.ltb n 32) (Nat.eqb n 127)
       then String backslash
              (String "x"%char (String (hexdig (Nat.div n 16)) (one (hexdig (Nat.modulo n 16)))))
  else one c.

Definition has_char (c : ascii) (s : string) : bool :=
  existsb (Ascii.eqb c) (chars s).

Definition repr_str (s : string) : string :=
  let quote := if andb (has_char squote s) (negb (has_char dquote s))
               then dquote else squote in
  String quote (String.concat "" (map (repr_char quote) (chars s)) ++ one quote).

Definition str_of_int (n : Z) : string := NilZero.string_of_int (Z.to_int n).

Fixpoint repr (obj : json) : string :=
  match obj with
  | JNull => "None"
  | JBool true => "True"
  | JBool false => "False"
  | JInt n => str_of_int n
  | JStr s => repr_str s
  | JArr items => "[" ++ String.concat ", " (map repr items) ++ "]"
  | JObj fields =>
      "{" ++ String.concat ", "
               (map (fun kv : string * json => let (k, v) := kv in repr_str k ++ ": " ++ repr v) fields)
          ++ "}"
  end.

(** [str(obj)]. *)
Definition str (obj : json) : string :=
  match obj with
  | JStr s => s
  | _ => repr obj
  end.

(** *** [int] *)

Definition is_digit (c : ascii) : bool :=
  let n := nat_of_ascii c in andb (Nat.leb 48 n) (Nat.leb n 57).

Definition digit_val (c : ascii) : Z := Z.of_nat (nat_of_ascii c) - 48.

Definition is_space (c : ascii) : bool :=
  let n := nat_of_ascii c in
  orb (andb (Nat.leb 9 n) (Nat.leb n 13)) (andb (Nat.leb 28 n) (Nat.leb n 32)).

Fixpoint lstrip (l : list ascii) : list ascii :=
  match l with
  | c :: r => if is_space c then lstrip r else l
  | [] => []
  end.

Definition strip (l : list ascii) : list ascii := rev (lstrip (rev (lstrip l))).

(** Decimal digits, with single underscores allowed between digits. *)
Fixpoint digits_acc (acc : Z) (after_underscore : bool) (l : list ascii) : option Z :=
  match l with
  | [] => if after_underscore then None else Some acc
  | c :: r =>
      if is_digit c then digits_acc (acc * 10 + digit_val c) false r
      else if andb (Ascii.eqb c "_"%char) (negb after_underscore) then digits_acc acc true r
      else None
  end.

(** [int(s)] for a string [s], base 10, on ASCII text. *)
Definition int_of_str (s : string) : result Z :=
  let body := strip (chars s) in
  let signed :=
    match body with
    | c :: r =>
        if Ascii.eqb c "-"%char then option_map Z.opp (digits_acc 0 true r)
        else if Ascii.eqb c "+"%char then digits_acc 0 true r
        else digits_acc 0 true body
    | [] => None
    end in
  match signed with
  | Some n => Ok n
  | None => Raise ValueError
  end.

(** [int(obj)]. *)
Definition int (obj : json) : result Z :=
  match obj with
  | JInt n => Ok n
  | JBool b => Ok (if b then 1 else 0)
  | JStr s => int_of_str s
  | _ => Raise TypeError
  end.

(** [s.replace(old, new)] for a one-character [old]. *)
Fixpoint replace_char (old : ascii) (new : string) (s : string) : string :=
  match s with
  | EmptyString => EmptyString
  | String c r =>
      if Ascii.eqb c old then new ++ replace_char old new r
      else String c (replace_char old new r)
  end.

End Py.
Export Py.

Notation "x <- r ;;; k" := (rbind r (fun x => k))
  (at level 61, r at next level, right associativity).

(* ================================================================== *)
(** ** Timestamps *)

Module Datetime.

Local Open Scope Z_scope.

(** A [datetime.datetime] value: its calendar fields, counted in
    microseconds from 1970-01-01T00:00:00 on the proleptic Gregorian
    calendar, and the UTC offset of its [tzinfo] in microseconds
    ([None] for a naive value). *)
Record datetime : Type := mk_datetime {
  wall_us : Z;
  utcoffset : option Z
}.

(** The instant an aware value denotes, in microseconds since the Unix
    epoch; a naive value denotes none. *)
Definition instant (d : datetime) : option Z :=
  option_map (fun off => wall_us d - off) (utcoffset d).

Definition is_leap (y : Z) : bool :=
  (y mod 4 =? 0) && (negb (y mod 100 =? 0) || (y mod 400 =? 0)).

Definition days_in_month (y m : Z) : Z :=
  if m =? 2 then (if is_leap y then 29 else 28)
  else if (m =? 4) || (m =? 6) || (m =? 9) || (m =? 11) then 30
  else 31.

(** Days from 1970-01-01 to the civil date [y]-[m]-[d]. *)
Definition days_from_civil (y m d : Z) : Z :=
  let y' := if m <=? 2 then y - 1 else y in
  let era := y' / 400 in
  let yoe := y' - era * 400 in
  let mp := (m + 9) mod 12 in
  let doy := (153 * mp + 2) / 5 + d - 1 in
  let doe := yoe * 365 + yoe / 4 - yoe / 100 + doy in
  era * 146097 + doe - 719468.

Definition us_per_second : Z := 1000000.
Definition us_per_day : Z := 86400 * us_per_second.

(** [datetime(year, month, day, hour, minute, second, microsecond, tzinfo)]:
    the constructor checks every field's range. *)
Definition make_datetime (y mo d h mi s us : Z) (tz : option Z) : result datetime :=
  if (1 <=? y) && (y <=? 9999) && (1 <=? mo) && (mo <=? 12)
     && (1 <=? d) && (d <=? days_in_month y mo)
     && (0 <=? h) && (h <=? 23) && (0 <=? mi) && (mi <=? 59)
     && (0 <=? s) && (s <=? 59) && (0 <=? us) && (us <=? 999999)
  then Ok {| wall_us := (days_from_civil y mo d * 86400 + h * 3600 + mi * 60 + s)
                          * us_per_second + us;
             utcoffset := tz |}
  else Raise ValueError.

Definition min_us : Z := days_from_civil 1 1 1 * us_per_day.
Definition max_us : Z := days_from_civil 10000 1 1 * us_per_day - 1.

(** [a >= b]: two aware values compare by instant, two naive ones by their
    fields, and a naive value does not compare to an aware one. *)
Definition ge (a b : datetime) : result bool :=
  match utcoffset a, utcoffset b with
  | Some oa, Some ob => Ok (wall_us b - ob <=? wall_us a - oa)
  | None, None => Ok (wall_us b <=? wall_us a)
  | _, _ => Raise TypeError
  end.

(** *** [datetime.fromisoformat] (Python 3.7 to 3.10)

    The accepted format is
    [YYYY-MM-DD[*HH[:MM[:SS[.fff[fff]]]][+HH:MM[:SS[.ffffff]]]]], with [*]
    any one character; the numeric fields are plain decimal digits. *)

Fixpoint drop (n : nat) (s : string) : string :=
  match n, s with
  | O, _ => s
  | S n', String _ r => drop n' r
  | S _, EmptyString => EmptyString
  end.

Fixpoint take (n : nat) (s : string) : string :=
  match n, s with
  | S n', String c r => String c (take n' r)
  | _, _ => EmptyString
  end.

(** [s.find(c)]. *)
Fixpoint find (c : ascii) (s : string) : option nat :=
  match s with
  | EmptyString => None
  | String a r => if Ascii.eqb a c then Some O else option_map S (find c r)
  end.

Fixpoint digits (acc : Z) (s : string) : option Z :=
  match s with
  | EmptyString => Some acc
  | String c r => if is_digit c then digits (acc * 10 + digit_val c) r else None
  end.

(** A non-empty run of decimal digits. *)
Definition number (s : string) : option Z :=
  match s with
  | EmptyString => None
  | _ => digits 0 s
  end.

Definition two_digits (s : string) : option (Z * string) :=
  match number (take 2 s) with
  | Some n => if Nat.eqb (String.length (take 2 s)) 2 then Some (n, drop 2 s) else None
  | None => None
  end.

Definition _parse_isoformat_date (dstr : string) : option (Z * Z * Z) :=
  match number (take 4 dstr), String.get 4 dstr,
        number (take 2 (drop 5 dstr)), String.get 7 dstr,
        number (take 2 (drop 8 dstr)) with
  | Some y, Some s1, Some m, Some s2, Some d =>
      if Ascii.eqb s1 "-"%char && Ascii.eqb s2 "-"%char
         && Nat.eqb (String.length dstr) 10
      then Some (y, m, d) else None
  | _, _, _, _, _ => None
  end.

(** [.fff] or [.ffffff], or nothing. *)
Definition _parse_fraction (s : string) : option Z :=
  match s with
  | EmptyString => Some 0
  | String c r =>
      if Ascii.eqb c "."%char then
        match number r with
        | Some n =>
            if Nat.eqb (String.length r) 3 then Some (n * 1000)
            else if Nat.eqb (String.length r) 6 then Some n
            else None
        | None => None
        end
      else None
  end.

(** [HH[:MM[:SS[.fff[fff]]]]] *)
Definition _parse_hh_mm_ss_ff (tstr : string) : option (Z * Z * Z * Z) :=
  match two_digits tstr with
  | None => None
  | Some (h, EmptyString) => Some (h, 0, 0, 0)
  | Some (h, String c1 r1) =>
      if negb (Ascii.eqb c1 ":"%char) then None else
      match two_digits r1 with
      | None => None
      | Some (m, EmptyString) => Some (h, m, 0, 0)
      | Some (m, String c2 r2) =>
          if negb (Ascii.eqb c2 ":"%char) then None else
          match two_digits r2 with
          | None => None
          | Some (s, r3) =>
              match _parse_fraction r3 with
              | Some us => Some (h, m, s, us)
              | None => None
              end
          end
      end
  end.

(** The time part with its optional offset: the offset starts at the first
    ["-"] of the string or, when it has none, at the first ["+"]. *)
Definition _parse_isoformat_time (tstr : string)
  : option (Z * Z * Z * Z * option Z) :=
  if Nat.ltb (String.length tstr) 2 then None else
  let tz_pos := match find "-"%char tstr with
                | Some p => Some p
                | None => find "+"%char tstr
                end in
  match tz_pos with
  | None =>
      match _parse_hh_mm_ss_ff tstr with
      | Some (h, m, s, us) => Some (h, m, s, us, None)
      | None => None
      end
  | Some p =>
      let tzstr := drop (S p) tstr in
      let n := String.length tzstr in
      match _parse_hh_mm_ss_ff (take p tstr) with
      | None => None
      | Some (h, m, s, us) =>
          if negb (Nat.eqb n 5 || Nat.eqb n 8 || Nat.eqb n 15) then None else
          match _parse_hh_mm_ss_ff tzstr with
          | None => None
          | Some (th, tm, ts, tus) =>
              let td := (th * 3600 + tm * 60 + ts) * us_per_second + tus in
              let sign := match String.get p tstr with
                          | Some c => if Ascii.eqb c "-"%char then -1 else 1
                          | None => 1
                          end in
              (* timezone(td) wants -24h < td < 24h *)
              if td <? us_per_day then Some (h, m, s, us, Some (sign * td))
              else None
          end
      end
  end.

Definition fromisoformat (date_string : string) : result datetime :=
  let dstr := take 10 date_string in
  let tstr := drop 11 date_string in
  match _parse_isoformat_date dstr with
  | None => Raise ValueError
  | Some (y, mo, d) =>
      (* a time is parsed as soon as something follows the date *)
      if Nat.leb (String.length date_string) 10
      then make_datetime y mo d 0 0 0 0 None
      else
        match _parse_isoformat_time tstr with
        | None => Raise ValueError
        | Some (h, mi, s, us, tz) => make_datetime y mo d h mi s us tz
        end
  end.

(** *** The clock *)

(** One reading of the machine's clock: the instant, in microseconds since
    the Unix epoch, and the UTC offset of the machine's local time zone at
    that instant, in microseconds. *)
Record clock : Type := mk_clock {
  utc_now : Z;
  local_utcoffset : Z
}.

(** [dt.datetime.now()], called without a [tz]: the local date and time, as
    a naive value. *)
Definition now (c : clock) : datetime :=
  {| wall_us := utc_now c + local_utcoffset c; utcoffset := None |}.

(** [pytz.utc.localize(d)]: attaches UTC to a naive value, keeping its
    fields; an aware value is refused. *)
Definition utc_localize (d : datetime) : result datetime :=
  match utcoffset d with
  | None => Ok {| wall_us := wall_us d; utcoffset := Some 0 |}
  | Some _ => Raise ValueError
  end.

(** [dt.datetime.fromtimestamp(ms / 1e3, pytz.utc)] for a whole number of
    milliseconds [ms]; a result outside the years 1 to 9999 is refused.
    The quotient and its rounding to microseconds are taken exactly: the
    interpreter computes them in binary floating point, which gives the
    same microsecond for the dates of this century and may differ by one
    or more microseconds for far later ones; for counts far outside the
    calendar it raises [OverflowError] or [OSError] rather than
    [ValueError]. *)
Definition utc_fromtimestamp_ms (ms : Z) : result datetime :=
  let us := ms * 1000 in
  if (min_us <=? us) && (us <=? max_us)
  then Ok {| wall_us := us; utcoffset := Some 0 |}
  else Raise ValueError.

End Datetime.
Export Datetime.

(* ================================================================== *)
(** ** [cattr.Converter]: structuring decoded JSON into typed values *)

Module Cattr.

(** Primitive types are structured by calling the type on the value. *)
Definition structure_str (obj : json) : result string := Ok (str obj).
Definition structure_int (obj : json) : result Z := int obj.
Definition structure_bool (obj : json) : result bool := Ok (truthy obj).

(** [Optional[T]]: [None] stays [None], anything else is structured as [T]. *)
Definition structure_optional {A} (f : json -> result A) (obj : json)
  : result (option A) :=
  match obj with
  | JNull => Ok None
  | _ => x <- f obj ;;; Ok (Some x)
  end.

Fixpoint structure_each {A} (f : json -> result A) (items : list json)
  : result (list A) :=
  match items with
  | [] => Ok []
  | x :: rest =>
      y <- f x ;;;
      ys <- structure_each f rest ;;;
      Ok (y :: ys)
  end.

(** [List[T]]: every element the value yields is structured as [T]. *)
Definition structure_list {A} (f : json -> result A) (obj : json)
  : result (list A) :=
  items <- iter obj ;;; structure_each f items.

(** One attribute of an attrs class, read from the mapping: a missing key
    leaves the attribute out, any other failure of [obj[name]] or of the
    attribute's own structuring is raised. *)
Definition field {A} (f : json -> result A) (obj : json) (name : string)
  : result (option A) :=
  match getitem obj name with
  | Ok val => x <- f val ;;; Ok (Some x)
  | Raise (KeyError _) => Ok None
  | Raise e => Raise e
  end.

(** The generated [__init__]: an attribute without a default must be
    given, one with a default falls back to it. *)
Definition required {A} (given : option A) : result A :=
  match given with
  | Some a => Ok a
  | None => Raise TypeError
  end.

Definition with_default {A} (default : A) (given : option A) : A :=
  match given with
  | Some a => a
  | None => default
  end.

End Cattr.
Export Cattr.

(* ================================================================== *)
(** ** The records of experimenter.py *)

Module Variant.
Record t : Type := mk {
  is_control : bool;
  slug : string;
  ratio : Z
}.

Definition structure (obj : json) : result t :=
  g_is_control <- field structure_bool obj "is_control" ;;;
  g_slug <- field structure_str obj "slug" ;;;
  g_ratio <- field structure_int obj "ratio" ;;;
  a_is_control <- required g_is_control ;;;
  a_slug <- required g_slug ;;;
  a_ratio <- required g_ratio ;;;
  Ok {| is_control := a_is_control; slug := a_slug; ratio := a_ratio |}.
End Variant.

Definition _coerce_none_to_zero (x : option Z) : Z :=
  match x with
  | None => 0
  | Some n => n
  end.

Module Branch.
Record t : Type := mk {
  slug : string;
  ratio : Z
}.

Definition structure (obj : json) : result t :=
  g_slug <- field structure_str obj "slug" ;;;
  g_ratio <- field structure_int obj "ratio" ;;;
  a_slug <- required g_slug ;;;
  a_ratio <- required g_ratio ;;;
  Ok {| slug := a_slug; ratio := a_ratio |}.
End Branch.

Module Experiment.
Record t : Type := mk {
  experimenter_slug : option string;
  normandy_slug : option string;
  type : string;
  status : option string;
  branches : list Branch.t;
  probe_sets : list string;
  start_date : option datetime;
  end_date : option datetime;
  proposed_enrollment : option Z;
  reference_branch : option string;
  is_high_population : bool
}.
End Experiment.

Module ExperimentV1.
Record t : Type := mk {
  slug : string;
  type : string;
  status : string;
  start_date : option datetime;
  end_date : option datetime;
  proposed_enrollment : option Z;
  variants : list Variant.t;
  normandy_slug : option string;
  is_high_population : option bool
}.

(** [num] is the decoded JSON value of the field. *)
Definition _unix_millis_to_datetime (num : json) : result (option datetime) :=
  match num with
  | JNull => Ok None
  | JInt ms => d <- utc_fromtimestamp_ms ms ;;; Ok (Some d)
  | JBool b => d <- utc_fromtimestamp_ms (if b then 1 else 0) ;;; Ok (Some d)
  | _ => Raise TypeError
  end.

(** [Optional[dt.datetime]] with the hook registered by [from_dict]. *)
Definition structure_datetime (obj : json) : result (option datetime) :=
  o <- structure_optional _unix_millis_to_datetime obj ;;;
  Ok (match o with Some d => d | None => None end).

Definition from_dict (d : json) : result t :=
  g_slug <- field structure_str d "slug" ;;;
  g_type <- field structure_str d "type" ;;;
  g_status <- field structure_str d "status" ;;;
  g_start_date <- field structure_datetime d "start_date" ;;;
  g_end_date <- field structure_datetime d "end_date" ;;;
  g_proposed_enrollment <-
    field (structure_optional structure_int) d "proposed_enrollment" ;;;
  g_variants <- field (structure_list Variant.structure) d "variants" ;;;
  g_normandy_slug <- field (structure_optional structure_str) d "normandy_slug" ;;;
  g_is_high_population <-
    field (structure_optional structure_bool) d "is_high_population" ;;;
  a_slug <- required g_slug ;;;
  a_type <- required g_type ;;;
  a_status <- required g_status ;;;
  a_start_date <- required g_start_date ;;;
  a_end_date <- required g_end_date ;;;
  a_proposed_enrollment <- required g_proposed_enrollment ;;;
  a_variants <- required g_variants ;;;
  Ok {| slug := a_slug;
        type := a_type;
        status := a_status;
        start_date := a_start_date;
        end_date := a_end_date;
        proposed_enrollment := Some (_coerce_none_to_zero a_proposed_enrollment);
        variants := a_variants;
        normandy_slug := with_default None g_normandy_slug;
        is_high_population := with_default None g_is_high_population |}.

Definition to_experiment (self : t) : Experiment.t :=
  let branches :=
    map (fun variant => {| Branch.slug := Variant.slug variant;
                           Branch.ratio := Variant.ratio variant |})
        (variants self) in
  let control_slugs :=
    map Variant.slug (filter Variant.is_control (variants self)) in
  let control_slug :=
    if Nat.eqb (List.length control_slugs) 1 then nth_error control_slugs 0
    else None in
  {| Experiment.normandy_slug := normandy_slug self;
     Experiment.experimenter_slug := Some (slug self);
     Experiment.type := type self;
     Experiment.status := Some (status self);
     Experiment.start_date := start_date self;
     Experiment.end_date := end_date self;
     Experiment.proposed_enrollment := proposed_enrollment self;
     Experiment.branches := branches;
     Experiment.probe_sets := [];
     Experiment.reference_branch := control_slug;
     Experiment.is_high_population :=
       match is_high_population self with
       | Some true => true
       | _ => false
       end |}.
End ExperimentV1.

(* ================================================================== *)
(** ** Effects: the HTTP session, the clock, the logger, [time.sleep] *)

Module Runtime.

(** A response of the session; [json_body] is what [Response.json()]
    gives: the decoded body, or the exception of the decoder.  The method
    does not look at [status_code]. *)
Record response : Type := mk_response {
  status_code : Z;
  json_body : result json
}.

(** The environment of a run: [http_get url k] is the outcome of
    [session.get(url)] when [k] requests were made before it, and
    [clock_at k] is the clock reading taken after [k] earlier readings. *)
Record env : Type := mk_env {
  http_get : string -> nat -> result response;
  clock_at : nat -> clock
}.

Inductive log_record : Type :=
| LogInfo (msg : string)
| LogException (e : exn) (experiment : json).

(** What a run has done so far.  [decode_calls] is a trace of the calls of
    [from_dict], class name and argument, kept for the proofs only. *)
Record world : Type := mk_world {
  requests : list string;
  clock_reads : nat;
  slept : Z;
  log : list log_record;
  decode_calls : list (string * json)
}.

Definition start : world :=
  {| requests := []; clock_reads := O; slept := 0; log := []; decode_calls := [] |}.

(** A computation that may raise; the effects done before the exception
    stay done. *)
Definition M (A : Type) : Type := world -> result A * world.

Definition ret {A} (a : A) : M A := fun w => (Ok a, w).

Definition raise {A} (e : exn) : M A := fun w => (Raise e, w).

Definition bind {A B} (m : M A) (k : A -> M B) : M B :=
  fun w =>
    match m w with
    | (Ok a, w') => k a w'
    | (Raise e, w') => (Raise e, w')
    end.

Definition lift {A} (r : result A) : M A := fun w => (r, w).

(** [try: body  except Exception as e: handler(e)] *)
Definition try_except {A} (body : M A) (handler : exn -> M A) : M A :=
  fun w =>
    match body w with
    | (Ok a, w') => (Ok a, w')
    | (Raise e, w') => handler e w'
    end.

Definition session_get (E : env) (url : string) : M response :=
  fun w =>
    (http_get E url (List.length (requests w)),
     {| requests := (requests w ++ [url])%list; clock_reads := clock_reads w;
        slept := slept w; log := log w; decode_calls := decode_calls w |}).

Definition sleep (seconds : Z) : M unit :=
  fun w =>
    (Ok tt,
     {| requests := requests w; clock_reads := clock_reads w;
        slept := slept w + seconds; log := log w;
        decode_calls := decode_calls w |}).

Definition emit (r : log_record) : M unit :=
  fun w =>
    (Ok tt,
     {| requests := requests w; clock_reads := clock_reads w;
        slept := slept w; log := (log w ++ [r])%list;
        decode_calls := decode_calls w |}).

Definition read_clock (E : env) : M clock :=
  fun w =>
    (Ok (clock_at E (clock_reads w)),
     {| requests := requests w; clock_reads := S (clock_reads w);
        slept := slept w; log := log w; decode_calls := decode_calls w |}).

Definition note_decode (cls : string) (d : json) : M unit :=
  fun w =>
    (Ok tt,
     {| requests := requests w; clock_reads := clock_reads w;
        slept := slept w; log := log w;
        decode_calls := (decode_calls w ++ [(cls, d)])%list |}).

End Runtime.
Export Runtime.

Notation "x <- m ;; k" := (bind m (fun x => k))
  (at level 61, m at next level, right associativity).
Notation "m ;; k" := (bind m (fun _ => k))
  (at level 61, right associativity).

Module ExperimentV6.
Record t : Type := mk {
  slug : string;
  branches : list Branch.t;
  startDate : option datetime;
  endDate : option datetime;
  proposedEnrollment : Z;
  referenceBranch : option string;
  probeSets : list string
}.

(** The hook registered for [dt.datetime]:
    [dt.datetime.fromisoformat(num.replace("Z", "+00:00"))]. *)
Definition datetime_hook (num : json) : result datetime :=
  match num with
  | JStr s => fromisoformat (replace_char "Z"%char "+00:00" s)
  | _ => Raise AttributeError
  end.

Definition from_dict (d : json) : result t :=
  g_slug <- field structure_str d "slug" ;;;
  g_branches <- field (structure_list Branch.structure) d "branches" ;;;
  g_startDate <- field (structure_optional datetime_hook) d "startDate" ;;;
  g_endDate <- field (structure_optional datetime_hook) d "endDate" ;;;
  g_proposedEnrollment <- field structure_int d "proposedEnrollment" ;;;
  g_referenceBranch <- field (structure_optional structure_str) d "referenceBranch" ;;;
  g_probeSets <- field (structure_list structure_str) d "probeSets" ;;;
  a_slug <- required g_slug ;;;
  a_branches <- required g_branches ;;;
  a_startDate <- required g_startDate ;;;
  a_endDate <- required g_endDate ;;;
  a_proposedEnrollment <- required g_proposedEnrollment ;;;
  a_referenceBranch <- required g_referenceBranch ;;;
  a_probeSets <- required g_probeSets ;;;
  Ok {| slug := a_slug;
        branches := a_branches;
        startDate := a_startDate;
        endDate := a_endDate;
        proposedEnrollment := a_proposedEnrollment;
        referenceBranch := a_referenceBranch;
        probeSets := a_probeSets |}.

(** The [status] expression of [to_experiment]:
    ["Live" if (self.endDate and self.endDate >= pytz.utc.localize(dt.datetime.now()))
            or self.endDate is None else "Complete"].
    The clock is read only when [endDate] is set. *)
Definition status_of (E : env) (endDate : option datetime) : M string :=
  match endDate with
  | Some d =>
      c <- read_clock E ;;
      localized <- lift (utc_localize (now c)) ;;
      still_running <- lift (ge d localized) ;;
      ret (if still_running : bool then "Live" else "Complete")
  | None => ret "Live"
  end.

Definition to_experiment (E : env) (self : t) : M Experiment.t :=
  status <- status_of E (endDate self) ;;
  ret {| Experiment.normandy_slug := Some (slug self);
         Experiment.experimenter_slug := None;
         Experiment.type := "v6";
         Experiment.status := Some status;
         Experiment.start_date := startDate self;
         Experiment.end_date := endDate self;
         Experiment.proposed_enrollment := Some (proposedEnrollment self);
         Experiment.branches := branches self;
         Experiment.probe_sets := probeSets self;
         Experiment.reference_branch := referenceBranch self;
         Experiment.is_high_population := false |}.
End ExperimentV6.

Module ExperimentCollection.

(** The class has the single attribute [experiments]; a collection is
    that list. *)
Definition t : Type := list Experiment.t.

Definition MAX_RETRIES : nat := 3.
Definition EXPERIMENTER_API_URL_V1 : string :=
  "https://experimenter.services.mozilla.com/api/v1/experiments/".
Definition EXPERIMENTER_API_URL_V6 : string :=
  "https://experimenter.services.mozilla.com/api/v6/experiments/".

(** [blob = session.get(url).json()] *)
Definition get_json (E : env) (url : string) : M json :=
  resp <- session_get E url ;;
  lift (json_body resp).

(** The [for _i in range(n)] loop of [_retry_get] with its [else] clause. *)
Fixpoint retry_loop (E : env) (n : nat) (url : string) : M json :=
  match n with
  | O => raise (Exception ("Too many retries for " ++ url))
  | S n' =>
      try_except (get_json E url)
        (fun _ =>
           emit (LogInfo ("Error fetching from " ++ url ++ ". Retrying...")) ;;
           sleep 1 ;;
           retry_loop E n' url)
  end.

Definition _retry_get (E : env) (url : string) : M json :=
  retry_loop E MAX_RETRIES url.

(** [logger.exception(str(e), exc_info=e, extra={"experiment": experiment["slug"]})]:
    the arguments are evaluated before the call. *)
Definition log_failure (e : exn) (experiment : json) : M unit :=
  slug <- lift (getitem experiment "slug") ;;
  emit (LogException e slug).

Fixpoint legacy_loop (items : list json) (legacy_experiments : list Experiment.t)
  : M (list Experiment.t) :=
  match items with
  | [] => ret legacy_experiments
  | experiment :: rest =>
      ty <- lift (getitem experiment "type") ;;
      appended <-
        (if negb (eq_str ty "rapid") then
           try_except
             (note_decode "ExperimentV1" experiment ;;
              v1 <- lift (ExperimentV1.from_dict experiment) ;;
              ret (legacy_experiments ++ [ExperimentV1.to_experiment v1])%list)
             (fun e => log_failure e experiment ;; ret legacy_experiments)
         else ret legacy_experiments) ;;
      legacy_loop rest appended
  end.

Fixpoint nimbus_loop (E : env) (items : list json)
    (nimbus_experiments : list Experiment.t) : M (list Experiment.t) :=
  match items with
  | [] => ret nimbus_experiments
  | experiment :: rest =>
      appended <-
        try_except
          (note_decode "ExperimentV6" experiment ;;
           v6 <- lift (ExperimentV6.from_dict experiment) ;;
           ex <- ExperimentV6.to_experiment E v6 ;;
           ret (nimbus_experiments ++ [ex])%list)
          (fun e => log_failure e experiment ;; ret nimbus_experiments) ;;
      nimbus_loop E rest appended
  end.

Definition from_experimenter (E : env) : M t :=
  legacy_experiments_json <- _retry_get E EXPERIMENTER_API_URL_V1 ;;
  legacy_items <- lift (iter legacy_experiments_json) ;;
  legacy_experiments <- legacy_loop legacy_items [] ;;
  nimbus_experiments_json <- _retry_get E EXPERIMENTER_API_URL_V6 ;;
  nimbus_items <- lift (iter nimbus_experiments_json) ;;
  nimbus_experiments <- nimbus_loop E nimbus_items [] ;;
  ret (nimbus_experiments ++ legacy_experiments)%list.

Definition status_launched (status : option string) : bool :=
  match status with
  | Some s => String.eqb s "Complete" || String.eqb s "Live"
  | None => true
  end.

Definition ever_launched (self : t) : t :=
  filter (fun ex => status_launched (Experiment.status ex)) self.

(** The argument of [of_type]: one [str], or a container of [str] (a
    list, a tuple, a set). *)
Inductive type_or_types : Type :=
| OneType (s : string)
| ManyTypes (types : list string).

Definition of_type (self : t) (arg : type_or_types) : t :=
  let types :=
    match arg with
    | OneType s => [s]
    | ManyTypes types => types
    end in
  filter (fun ex => existsb (String.eqb (Experiment.type ex)) types) self.

(** [attribute == slug] for an [Optional[str]] attribute. *)
Definition is_slug (attribute : option string) (slug : string) : bool :=
  match attribute with
  | Some s => String.eqb s slug
  | None => false
  end.

Definition with_slug (self : t) (slug : string) : t :=
  filter (fun ex => is_slug (Experiment.experimenter_slug ex) slug
                    || is_slug (Experiment.normandy_slug ex) slug)
         self.

(** A list comprehension [[x for x in l if cond(x)]] whose condition may
    raise: the conditions are evaluated in order and the first exception
    ends the comprehension. *)
Fixpoint comprehension {A} (cond : A -> result bool) (l : list A) : result (list A) :=
  match l with
  | [] => Ok []
  | x :: rest =>
      keep <- cond x ;;;
      kept <- comprehension cond rest ;;;
      Ok (if keep : bool then x :: kept else kept)
  end.

(** [ex.start_date and ex.start_date >= since] *)
Definition started_cond (since : datetime) (ex : Experiment.t) : result bool :=
  match Experiment.start_date ex with
  | Some d => ge d since
  | None => Ok false
  end.

Definition started_since (self : t) (since : datetime) : result t :=
  comprehension (started_cond since) (ever_launched self).

(** [(ex.end_date and ex.end_date >= after) or ex.end_date is None] *)
Definition ending_cond (after : datetime) (ex : Experiment.t) : result bool :=
  match Experiment.end_date ex with
  | Some d => ge d after
  | None => Ok true
  end.

Definition end_on_or_after (self : t) (after : datetime) : result t :=
  comprehension (ending_cond after) (ever_launched self).

End ExperimentCollection.

(* ================================================================== *)
(** ** Notions used to state the properties *)

(** [v] is the one variant of [vs] marked as control. *)
Definition exactly_one_control (vs : list Variant.t) (v : Variant.t) : Prop :=
  exists before after,
    vs = (before ++ v :: after)%list
    /\ Variant.is_control v = true
    /\ Forall (fun x => Variant.is_control x = false) (before ++ after)%list.

(** The message [_retry_get] logs after a failed attempt. *)
Definition retry_message (url : string) : string :=
  "Error fetching from " ++ url ++ ". Retrying...".

(** The outcome of [session.get(url).json()] for the [k]-th request made
    from the world [w]. *)
Definition attempt (E : env) (url : string) (w : world) (k : nat) : result json :=
  rbind (http_get E url (List.length (requests w) + k)) json_body.

(** The world after [n] requests for [url] of which [f] failed, each
    failure logged and followed by a sleep of one second. *)
Definition after_attempts (url : string) (n f : nat) (w : world) : world :=
  {| requests := (requests w ++ repeat url n)%list;
     clock_reads := clock_reads w;
     slept := slept w + Z.of_nat f;
     log := (log w ++ repeat (LogInfo (retry_message url)) f)%list;
     decode_calls := decode_calls w |}.

(** The world once a call of [from_dict] is traced, and once a record is
    logged. *)
Definition noted (cls : string) (d : json) (w : world) : world :=
  snd (note_decode cls d w).

Definition logged (r : log_record) (w : world) : world :=
  snd (emit r w).

(** What the handler of a decoding failure does: it needs the record's
    slug before it can log. *)
Definition on_failure {A} (e : exn) (experiment : json) (w : world)
    (continue : world -> result A * world) : result A * world :=
  match getitem experiment "slug" with
  | Ok slug => continue (logged (LogException e slug) w)
  | Raise e' => (Raise e', w)
  end.

(** [d] is a JSON object that has the key [k]. *)
Definition has_key (k : string) (d : json) : Prop :=
  exists fields v, d = JObj fields /\ lookup k fields = Some v.

(** The conversions of the legacy records of a batch that are not of type
    ["rapid"] and decode. *)
Definition legacy_results (items : list json) : list Experiment.t :=
  flat_map
    (fun d =>
       match getitem d "type" with
       | Ok ty =>
           if eq_str ty "rapid" then []
           else match ExperimentV1.from_dict d with
                | Ok v1 => [ExperimentV1.to_experiment v1]
                | Raise _ => []
                end
       | Raise _ => []
       end)
    items.

(** Every traced decoding of a legacy record made between [w] and [w']
    was of a record whose type is not ["rapid"]. *)
Definition no_rapid_decoded (w w' : world) : Prop :=
  forall d,
    In ("ExperimentV1", d) (decode_calls w') ->
    In ("ExperimentV1", d) (decode_calls w)
    \/ getitem d "type" <> Ok (JStr "rapid").

(** Sample inputs, used to run the code on concrete data. *)
Module Samples.

Import ExperimentCollection.

Definition ok_response (body : json) : result response :=
  Ok {| status_code := 200; json_body := Ok body |}.

Definition utc_machine (instant_us : Z) : clock :=
  {| utc_now := instant_us; local_utcoffset := 0 |}.

(** 2021-01-01T00:00:00Z *)
Definition new_year_2021 : Z := 1609459200 * us_per_second.

Definition hour_us : Z := 3600 * us_per_second.

(** A server answering the two endpoints with fixed arrays, on a machine
    whose clock always reads [c]. *)
Definition serving (legacy nimbus : json) (c : clock) : env :=
  {| http_get := fun url _ =>
       if String.eqb url EXPERIMENTER_API_URL_V1 then ok_response legacy
       else ok_response nimbus;
     clock_at := fun _ => c |}.

(** A server that cannot be reached. *)
Definition unreachable : env :=
  {| http_get := fun _ _ => Raise (Exception "connection refused");
     clock_at := fun _ => utc_machine new_year_2021 |}.

(** A server that fails twice and answers the third request. *)
Definition flaky (body : json) : env :=
  {| http_get := fun _ k =>
       if Nat.ltb k 2 then Raise (Exception "connection reset") else ok_response body;
     clock_at := fun _ => utc_machine new_year_2021 |}.

(** A server answering 500 with a JSON error document. *)
Definition error_document : json := JObj [("detail", JStr "Server Error")].

Definition failing_server : env :=
  {| http_get := fun _ _ => Ok {| status_code := 500; json_body := Ok error_document |};
     clock_at := fun _ => utc_machine new_year_2021 |}.

Definition control_variant : json :=
  JObj [("is_control", JBool true); ("slug", JStr "control"); ("ratio", JInt 1)].

Definition treatment_variant : json :=
  JObj [("is_control", JBool false); ("slug", JStr "treatment"); ("ratio", JInt 1)].

(** The legacy record of the specification's end-to-end scenario, without
    its [proposed_enrollment] key. *)
Definition legacy_base : list (string * json) :=
  [("slug", JStr "a"); ("type", JStr "pref"); ("status", JStr "Complete");
   ("start_date", JInt 0); ("end_date", JInt 1000);
   ("variants", JArr [control_variant])].

Definition legacy_record : json :=
  JObj (("proposed_enrollment", JNull) :: legacy_base).

Definition legacy_decoded : ExperimentV1.t :=
  {| ExperimentV1.slug := "a";
     ExperimentV1.type := "pref";
     ExperimentV1.status := "Complete";
     ExperimentV1.start_date := Some {| wall_us := 0; utcoffset := Some 0 |};
     ExperimentV1.end_date := Some {| wall_us := 1000000; utcoffset := Some 0 |};
     ExperimentV1.proposed_enrollment := Some 0;
     ExperimentV1.variants :=
       [{| Variant.is_control := true; Variant.slug := "control"; Variant.ratio := 1 |}];
     ExperimentV1.normandy_slug := None;
     ExperimentV1.is_high_population := None |}.

Definition rapid_record : json :=
  JObj [("slug", JStr "r"); ("type", JStr "rapid"); ("status", JStr "Live");
        ("start_date", JNull); ("end_date", JNull);
        ("proposed_enrollment", JInt 7); ("variants", JArr [])].

(** A V6 record ending at [endDate]. *)
Definition nimbus_record (slug : string) (endDate : json) : json :=
  JObj [("slug", JStr slug);
        ("branches", JArr [JObj [("slug", JStr "control"); ("ratio", JInt 1)]]);
        ("startDate", JStr "2020-12-01T00:00:00Z"); ("endDate", endDate);
        ("proposedEnrollment", JInt 7); ("referenceBranch", JStr "control");
        ("probeSets", JArr [])].

(** A V6 record that lacks its [slug]. *)
Definition nameless_record : json :=
  JObj [("branches", JArr []); ("startDate", JNull); ("endDate", JNull);
        ("proposedEnrollment", JInt 7); ("referenceBranch", JNull);
        ("probeSets", JArr [])].

(** A machine two hours east of UTC, at 2021-01-01T00:00:00Z. *)
Definition cairo_clock : clock :=
  {| utc_now := new_year_2021; local_utcoffset := 2 * hour_us |}.

(** A V6 record ending one hour later, at 2021-01-01T01:00:00Z. *)
Definition ending_soon : json := nimbus_record "soon" (JStr "2021-01-01T01:00:00Z").

(** A legacy batch with a record of type ["rapid"], and a V6 batch. *)
Definition mixed_service : env :=
  serving (JArr [rapid_record; legacy_record])
          (JArr [nimbus_record "open" JNull])
          (utc_machine new_year_2021).

(** A V6 batch whose first record lacks its slug. *)
Definition nameless_service : env :=
  serving (JArr [legacy_record])
          (JArr [nameless_record; nimbus_record "open" JNull])
          (utc_machine new_year_2021).

(** A legacy batch whose first record lacks its type. *)
Definition typeless_service : env :=
  serving (JArr [JObj [("slug", JStr "b")]; legacy_record])
          (JArr [])
          (utc_machine new_year_2021).

End Samples.

(** Whether a [datetime] carries a UTC offset. *)
Definition aware (d : datetime) : bool :=
  match utcoffset d with
  | Some _ => true
  | None => false
  end.

(** The status is one that [ever_launched] keeps. *)
Definition launched (ex : Experiment.t) : Prop :=
  Experiment.status ex = Some "Complete"
  \/ Experiment.status ex = Some "Live"
  \/ Experiment.status ex = None.

(** The condition [cond] evaluates to [True] on [x]. *)
Definition holds {A} (cond : A -> result bool) (x : A) : bool :=
  match cond x with
  | Ok b => b
  | Raise _ => false
  end.

(** The keys a record must carry to decode, per schema. *)
Definition v1_required : list string :=
  ["slug"; "type"; "status"; "start_date"; "end_date"; "proposed_enrollment";
   "variants"].

Definition v6_required : list string :=
  ["slug"; "branches"; "startDate"; "endDate"; "proposedEnrollment";
   "referenceBranch"; "probeSets"].

(** Among the requests for [urls], made in this order when [base]
    requests were made before them, the number of those for which
    [session.get(url).json()] raises. *)
Fixpoint failed_requests (E : env) (base : nat) (urls : list string) : nat :=
  match urls with
  | [] => O
  | url :: rest =>
      ((if is_ok (rbind (http_get E url base) json_body) then 0 else 1)
       + failed_requests E (S base) rest)%nat
  end.

(** The experiment a decoded V6 record stands for, once its status is
    known. *)
Definition nimbus_experiment (v6 : ExperimentV6.t) (status : string) : Experiment.t :=
  {| Experiment.experimenter_slug := None;
     Experiment.normandy_slug := Some (ExperimentV6.slug v6);
     Experiment.type := "v6";
     Experiment.status := Some status;
     Experiment.branches := ExperimentV6.branches v6;
     Experiment.probe_sets := ExperimentV6.probeSets v6;
     Experiment.start_date := ExperimentV6.startDate v6;
     Experiment.end_date := ExperimentV6.endDate v6;
     Experiment.proposed_enrollment := Some (ExperimentV6.proposedEnrollment v6);
     Experiment.reference_branch := ExperimentV6.referenceBranch v6;
     Experiment.is_high_population := false |}.

(** The experiments a V6 batch gives when [reads] clock readings were
    taken before it.  A record that does not decode gives none.  One
    without end date is ["Live"].  One with an end date takes the next
    clock reading: if the end date has no offset it gives no experiment,
    otherwise it is ["Live"] when its instant is not before the local date
    and time of that reading taken as UTC, and ["Complete"] when it is. *)
Fixpoint nimbus_results (E : env) (reads : nat) (items : list json)
  : list Experiment.t :=
  match items with
  | [] => []
  | d :: rest =>
      match ExperimentV6.from_dict d with
      | Raise _ => nimbus_results E reads rest
      | Ok v6 =>
          match ExperimentV6.endDate v6 with
          | None => nimbus_experiment v6 "Live" :: nimbus_results E reads rest
          | Some dt =>
              match instant dt with
              | None => nimbus_results E (S reads) rest
              | Some i =>
                  let c := clock_at E reads in
                  nimbus_experiment v6
                    (if (utc_now c + local_utcoffset c <=? i)%Z
                     then "Live" else "Complete")
                  :: nimbus_results E (S reads) rest
              end
          end
      end
  end.

(** What every experiment converted from a legacy record looks like, and
    every experiment converted from a V6 record. *)
Definition legacy_shape (ex : Experiment.t) : Prop :=
  Experiment.experimenter_slug ex <> None
  /\ Experiment.status ex <> None
  /\ Experiment.proposed_enrollment ex <> None
  /\ Experiment.probe_sets ex = []
  /\ Experiment.type ex <> "rapid".

Definition nimbus_shape (ex : Experiment.t) : Prop :=
  Experiment.type ex = "v6"
  /\ Experiment.experimenter_slug ex = None
  /\ Experiment.normandy_slug ex <> None
  /\ Experiment.is_high_population ex = false
  /\ (Experiment.status ex = Some "Live" \/ Experiment.status ex = Some "Complete").

(** The legacy records of a batch that the loop hands to the decoder. *)
Definition not_rapid (d : json) : bool :=
  match getitem d "type" with
  | Ok ty => negb (eq_str ty "rapid")
  | Raise _ => false
  end.

(** The log records the legacy loop writes for a batch: one per record
    that is not of type ["rapid"] and does not decode, with its slug. *)
Definition legacy_failures (items : list json) : list log_record :=
  flat_map
    (fun d =>
       if not_rapid d then
         match ExperimentV1.from_dict d, getitem d "slug" with
         | Raise e, Ok slug => [LogException e slug]
         | _, _ => []
         end
       else [])
    items.

(** The world after the legacy loop went through a batch. *)
Definition after_legacy (items : list json) (w : world) : world :=
  {| requests := requests w;
     clock_reads := clock_reads w;
     slept := slept w;
     log := (log w ++ legacy_failures items)%list;
     decode_calls :=
       (decode_calls w ++ map (pair "ExperimentV1") (filter not_rapid items))%list |}.

(** Whether iterating a decoded response gives records to look at: a
    list does, and so do, vacuously, an empty object and an empty string. *)
Definition yields_records (blob : json) : bool :=
  match blob with
  | JArr _ => true
  | JObj [] => true
  | JStr EmptyString => true
  | _ => false
  end.

(** More sample inputs. *)
Module MoreSamples.

Import ExperimentCollection Samples.

(** A service whose legacy endpoint answers and whose V6 endpoint is
    down. *)
Definition legacy_only : env :=
  {| http_get := fun url _ =>
       if String.eqb url EXPERIMENTER_API_URL_V1
       then ok_response (JArr [legacy_record])
       else Raise (Exception "connection refused");
     clock_at := fun _ => utc_machine new_year_2021 |}.

Definition epoch : datetime := {| wall_us := 0; utcoffset := Some 0 |}.

(** A V6 record whose end date has no time and no offset. *)
Definition date_only_record : json := nimbus_record "naive" (JStr "2021-06-30").

Definition date_only_decoded : ExperimentV6.t :=
  {| ExperimentV6.slug := "naive";
     ExperimentV6.branches := [{| Branch.slug := "control"; Branch.ratio := 1 |}];
     ExperimentV6.startDate :=
       Some {| wall_us := 1606780800 * us_per_second; utcoffset := Some 0 |};
     ExperimentV6.endDate :=
       Some {| wall_us := 1625011200 * us_per_second; utcoffset := None |};
     ExperimentV6.proposedEnrollment := 7;
     ExperimentV6.referenceBranch := Some "control";
     ExperimentV6.probeSets := [] |}.

(** A legacy record that does not decode: its variants are a number. *)
Definition broken_record : json :=
  JObj [("slug", JStr "broken"); ("type", JStr "pref"); ("status", JStr "Live");
        ("start_date", JNull); ("end_date", JNull);
        ("proposed_enrollment", JInt 7); ("variants", JInt 3)].

(** The decoded form of [Samples.ending_soon]. *)
Definition ending_soon_decoded : ExperimentV6.t :=
  Eval vm_compute in
    match ExperimentV6.from_dict ending_soon with
    | Ok v6 => v6
    | Raise _ => date_only_decoded
    end.

(** What [from_experimenter] builds from [Samples.mixed_service]. *)
Definition mixed_collection : ExperimentCollection.t :=
  Eval vm_compute in
    match fst (from_experimenter mixed_service start) with
    | Ok coll => coll
    | Raise _ => []
    end.

Definition legacy_batch : list json := [rapid_record; legacy_record; broken_record].

End MoreSamples.

(** A decidable form of [has_key]. *)
Definition has_keyb (k : string) (d : json) : bool :=
  match d with
  | JObj fields =>
      match lookup k fields with
      | Some _ => true
      | None => false
      end
  | _ => false
  end.

(* ================================================================== *)
(** ** Inversion lemmas for the decoders *)

Lemma rbind_Ok {A B} (r : result A) (k : A -> result B) (b : B) :
  rbind r k = Ok b -> exists a, r = Ok a /\ k a = Ok b.
Proof.
  destruct r as [a|e]; simpl; intros H; [eauto | discriminate].
Qed.

Lemma required_Ok {A} (given : option A) (a : A) :
  required given = Ok a -> given = Some a.
Proof.
  destruct given; simpl; intros H; [injection H as ->; reflexivity | discriminate].
Qed.

Lemma field_Some {A} (f : json -> result A) (d : json) (name : string) (x : A) :
  field f d name = Ok (Some x) ->
  exists v, getitem d name = Ok v /\ f v = Ok x.
Proof.
  unfold field. destruct (getitem d name) as [v|e].
  - intros H. apply rbind_Ok in H. destruct H as (y & Hy & H).
    injection H as ->. eauto.
  - destruct e; discriminate.
Qed.

Lemma field_None {A} (f : json -> result A) (d : json) (name : string) :
  field f d name = Ok None -> exists k, getitem d name = Raise (KeyError k).
Proof.
  unfold field. destruct (getitem d name) as [v|e].
  - destruct (f v); simpl; discriminate.
  - destruct e; try discriminate. eauto.
Qed.

(** Peels the successive binds of a decoder that returned [Ok]. *)
Ltac peel H :=
  repeat (let a := fresh "g" in
          let Ha := fresh "Hg" in
          apply rbind_Ok in H; destruct H as (a & Ha & H)).

(** The attributes of a successfully decoded legacy record. *)
Lemma from_dict_v1_fields (d : json) (self : ExperimentV1.t) :
  ExperimentV1.from_dict d = Ok self ->
  (exists ty, getitem d "type" = Ok ty /\ ExperimentV1.type self = str ty)
  /\ (exists v o, getitem d "proposed_enrollment" = Ok v
                  /\ structure_optional structure_int v = Ok o
                  /\ ExperimentV1.proposed_enrollment self
                     = Some (_coerce_none_to_zero o))
  /\ (exists g, field (structure_optional structure_bool) d "is_high_population" = Ok g
                /\ ExperimentV1.is_high_population self = with_default None g).
Proof.
  unfold ExperimentV1.from_dict. intros H. peel H.
  injection H as <-. simpl.
  repeat match goal with
         | Hr : required _ = Ok _ |- _ => apply required_Ok in Hr; subst
         end.
  split; [|split].
  - apply field_Some in Hg0. destruct Hg0 as (ty & Hty & Hs).
    exists ty. split; [assumption|]. unfold structure_str in Hs.
    injection Hs as <-. reflexivity.
  - apply field_Some in Hg4. destruct Hg4 as (v & Hv & Hs). eauto.
  - eauto.
Qed.

(* ================================================================== *)
(** ** Legacy records: control branch, enrollment, population flag *)

Section LegacyConversion.

Import ExperimentV1.

Lemma filter_none (vs : list Variant.t) :
  Forall (fun x => Variant.is_control x = false) vs ->
  filter Variant.is_control vs = [].
Proof.
  induction 1 as [|x l Hx _ IH]; simpl; [reflexivity|].
  rewrite Hx. exact IH.
Qed.

Lemma filter_nil_none (vs : list Variant.t) :
  filter Variant.is_control vs = [] ->
  Forall (fun x => Variant.is_control x = false) vs.
Proof.
  induction vs as [|x l IH]; simpl; [constructor|].
  destruct (Variant.is_control x) eqn:Hx; [discriminate|].
  intros H. constructor; auto.
Qed.

Lemma filter_one (vs : list Variant.t) (v : Variant.t) :
  filter Variant.is_control vs = [v] <-> exactly_one_control vs v.
Proof.
  split.
  - induction vs as [|x l IH]; simpl; [discriminate|].
    destruct (Variant.is_control x) eqn:Hx.
    + intros H. injection H as -> Hl.
      exists [], l. simpl. auto using filter_nil_none.
    + intros H. destruct (IH H) as (b & a & -> & Hv & Hall).
      exists (x :: b), a. simpl. repeat split; auto.
  - intros (b & a & -> & Hv & Hall).
    apply Forall_app in Hall. destruct Hall as [Hb Ha].
    rewrite filter_app. simpl. rewrite Hv.
    rewrite (filter_none _ Hb), (filter_none _ Ha). reflexivity.
Qed.

(** C2.  The reference branch of a converted legacy record is the slug of
    its control variant exactly when one variant, and only one, is marked
    as control; with no control variant or several of them it is [None].
    The conversion is a total function: neither case is an error. *)
Theorem C2_reference_branch (self : ExperimentV1.t) :
  (forall s,
      Experiment.reference_branch (to_experiment self) = Some s
      <-> exists v, exactly_one_control (variants self) v /\ Variant.slug v = s)
  /\ (Experiment.reference_branch (to_experiment self) = None
      <-> List.length (filter Variant.is_control (variants self)) <> 1%nat).
Proof.
  unfold to_experiment. simpl. rewrite length_map.
  destruct (filter Variant.is_control (variants self)) as [|v [|v' l]] eqn:Hf; simpl.
  - split.
    + intros s. split; [discriminate|].
      intros (v & Hv & _). apply filter_one in Hv. congruence.
    + split; [intros _; discriminate | reflexivity].
  - split.
    + intros s. split.
      * intros H. injection H as <-. exists v. split; [|reflexivity].
        apply filter_one. exact Hf.
      * intros (u & Hu & <-). apply filter_one in Hu.
        rewrite Hf in Hu. injection Hu as ->. reflexivity.
    + split; [discriminate | intros H; exfalso; apply H; reflexivity].
  - split.
    + intros s. split; [discriminate|].
      intros (u & Hu & _). apply filter_one in Hu. congruence.
    + split; [intros _; discriminate | reflexivity].
Qed.


(** C10.  The population flag of a converted legacy record is [true]
    exactly when the decoded record holds [True]; a record whose key is
    missing, null or false converts to [false], one whose key is true to
    [true]. *)
Theorem C10_is_high_population (d : json) (self : ExperimentV1.t)
    (Hdecoded : from_dict d = Ok self) :
  (Experiment.is_high_population (to_experiment self) = true
   <-> is_high_population self = Some true)
  /\ ((forall k, getitem d "is_high_population" = Raise (KeyError k) ->
       Experiment.is_high_population (to_experiment self) = false)
      /\ (getitem d "is_high_population" = Ok JNull ->
          Experiment.is_high_population (to_experiment self) = false)
      /\ (forall b, getitem d "is_high_population" = Ok (JBool b) ->
          Experiment.is_high_population (to_experiment self) = b)).
Proof.
  destruct (from_dict_v1_fields d self Hdecoded) as (_ & _ & (g & Hg & Hflag)).
  unfold to_experiment; simpl. rewrite Hflag. clear Hflag.
  split.
  - destruct (with_default None g) as [[|]|]; split; congruence.
  - unfold field in Hg. split; [|split].
    + intros k Hk. rewrite Hk in Hg. injection Hg as <-. reflexivity.
    + intros Hk. rewrite Hk in Hg. simpl in Hg. injection Hg as <-. reflexivity.
    + intros b Hk. rewrite Hk in Hg. simpl in Hg. injection Hg as <-.
      destruct b; reflexivity.
Qed.

End LegacyConversion.

(* ================================================================== *)
(** ** The collection filter [ever_launched] *)

Section Filters.

Import ExperimentCollection.

Lemma status_launched_spec (status : option string) :
  status_launched status = true
  <-> status = Some "Complete" \/ status = Some "Live" \/ status = None.
Proof.
  destruct status as [s|]; simpl.
  - rewrite orb_true_iff, !String.eqb_eq. split.
    + intros [-> | ->]; auto.
    + intros [H | [H | H]]; [injection H; auto | injection H; auto | discriminate].
  - split; auto.
Qed.

(** C8.  [ever_launched] keeps exactly the experiments whose status is
    ["Complete"], ["Live"] or [None], in their order: it distributes over
    concatenation, an experiment is in the result if and only if it is in
    the collection with one of these statuses, so one with status
    ["Draft"] is left out and one with status [None] is kept. *)
Theorem C8_ever_launched :
  (forall (c : ExperimentCollection.t) (ex : Experiment.t),
      In ex (ever_launched c)
      <-> In ex c /\ (Experiment.status ex = Some "Complete"
                      \/ Experiment.status ex = Some "Live"
                      \/ Experiment.status ex = None))
  /\ (forall c1 c2 : ExperimentCollection.t,
         ever_launched (c1 ++ c2)%list = (ever_launched c1 ++ ever_launched c2)%list)
  /\ (forall (c : ExperimentCollection.t) (ex : Experiment.t),
         (Experiment.status ex = Some "Draft" -> ever_launched (ex :: c) = ever_launched c)
         /\ (Experiment.status ex = None -> ever_launched (ex :: c) = ex :: ever_launched c)).
Proof.
  split; [|split].
  - intros c ex. unfold ever_launched. rewrite filter_In, status_launched_spec.
    reflexivity.
  - intros c1 c2. unfold ever_launched. apply filter_app.
  - intros c ex. unfold ever_launched. simpl.
    split; intros ->; reflexivity.
Qed.

End Filters.

(* ================================================================== *)
(** ** The two timestamp parsers *)

Section Timestamps.

Lemma string_app_assoc (a b c : string) : (a ++ b) ++ c = a ++ (b ++ c).
Proof.
  induction a as [|x a IH]; simpl; [reflexivity | rewrite IH; reflexivity].
Qed.

Lemma replace_char_app (old : ascii) (new s1 s2 : string) :
  replace_char old new (s1 ++ s2)
  = replace_char old new s1 ++ replace_char old new s2.
Proof.
  induction s1 as [|c r IH]; simpl; [reflexivity|].
  rewrite IH. destruct (Ascii.eqb c old); simpl; [|reflexivity].
  symmetry. apply string_app_assoc.
Qed.

(** The V6 hook reads a trailing [Z] as the offset [+00:00], whatever
    comes before it. *)
Lemma datetime_hook_trailing_Z (s : string) :
  ExperimentV6.datetime_hook (JStr (s ++ "Z"))
  = ExperimentV6.datetime_hook (JStr (s ++ "+00:00")).
Proof.
  unfold ExperimentV6.datetime_hook. rewrite !replace_char_app. reflexivity.
Qed.

(** C9.  The legacy parser maps 0 milliseconds to the Unix epoch, in UTC;
    the V6 parser maps ["2021-01-01T00:00:00Z"] and
    ["2021-01-01T00:00:00+00:00"] to the same value, the instant
    1609459200 seconds after the epoch, and more generally reads a
    trailing [Z] as [+00:00]; both parsers keep null as [None]. *)
Theorem C9_timestamp_parsers :
  (ExperimentV1._unix_millis_to_datetime (JInt 0)
     = Ok (Some {| wall_us := 0; utcoffset := Some 0 |})
   /\ instant {| wall_us := 0; utcoffset := Some 0 |} = Some 0)
  /\ (ExperimentV6.datetime_hook (JStr "2021-01-01T00:00:00Z")
        = ExperimentV6.datetime_hook (JStr "2021-01-01T00:00:00+00:00")
      /\ exists d,
           ExperimentV6.datetime_hook (JStr "2021-01-01T00:00:00Z") = Ok d
           /\ instant d = Some (1609459200 * us_per_second))
  /\ (forall s,
         ExperimentV6.datetime_hook (JStr (s ++ "Z"))
         = ExperimentV6.datetime_hook (JStr (s ++ "+00:00")))
  /\ (ExperimentV1._unix_millis_to_datetime JNull = Ok None
      /\ ExperimentV1.structure_datetime JNull = Ok None
      /\ structure_optional ExperimentV6.datetime_hook JNull = Ok None).
Proof.
  split; [|split; [|split]].
  - split; reflexivity.
  - split; [reflexivity|].
    eexists. split; [vm_compute; reflexivity | reflexivity].
  - exact datetime_hook_trailing_Z.
  - repeat split.
Qed.

End Timestamps.

(* ================================================================== *)
(** ** The fetcher [_retry_get] *)

Section Fetcher.

Import ExperimentCollection.

Variable E : env.
Variable url : string.

Lemma world_eq (w1 w2 : world) :
  requests w1 = requests w2 -> clock_reads w1 = clock_reads w2 ->
  slept w1 = slept w2 -> log w1 = log w2 -> decode_calls w1 = decode_calls w2 ->
  w1 = w2.
Proof.
  destruct w1, w2; simpl; intros; subst; reflexivity.
Qed.

Lemma after_no_attempt (w : world) : after_attempts url 0 0 w = w.
Proof.
  apply world_eq; simpl; rewrite ?app_nil_r; auto. lia.
Qed.

(** One request: its decoded outcome, and the request recorded. *)
Lemma get_json_attempt (w : world) :
  get_json E url w = (attempt E url w 0, after_attempts url 1 0 w).
Proof.
  unfold get_json, bind, session_get, attempt, lift.
  rewrite Nat.add_0_r.
  assert (Hw : forall w', w' = after_attempts url 1 0 w ->
            {| requests := (requests w ++ [url])%list; clock_reads := clock_reads w;
               slept := slept w; log := log w; decode_calls := decode_calls w |} = w').
  { intros w' ->. apply world_eq; simpl; rewrite ?app_nil_r; auto. lia. }
  destruct (http_get E url (List.length (requests w))) as [resp|e]; simpl;
    rewrite (Hw _ eq_refl); reflexivity.
Qed.

Lemma after_attempts_step (n f : nat) (w : world) :
  after_attempts url n f (after_attempts url 1 1 w)
  = after_attempts url (S n) (S f) w.
Proof.
  apply world_eq; simpl; auto.
  - rewrite <- app_assoc. reflexivity.
  - lia.
  - rewrite <- app_assoc. reflexivity.
Qed.

Lemma attempt_shift (w : world) (j : nat) :
  attempt E url (after_attempts url 1 1 w) j = attempt E url w (S j).
Proof.
  unfold attempt. simpl. rewrite length_app. simpl.
  replace (List.length (requests w) + 1 + j)%nat
    with (List.length (requests w) + S j)%nat by lia.
  reflexivity.
Qed.

(** After a failed attempt the loop logs, sleeps one second and goes on
    with one attempt less. *)
Lemma retry_loop_failed (n : nat) (w : world) :
  is_ok (attempt E url w 0) = false ->
  retry_loop E (S n) url w = retry_loop E n url (after_attempts url 1 1 w).
Proof.
  intros Hfail. simpl. unfold try_except. rewrite get_json_attempt.
  destruct (attempt E url w 0) as [blob|e]; [discriminate|].
  unfold bind, emit, sleep. simpl. f_equal.
  apply world_eq; simpl; rewrite ?app_nil_r; auto. lia.
Qed.

Lemma retry_loop_succeeded (n : nat) (w : world) (blob : json) :
  attempt E url w 0 = Ok blob ->
  retry_loop E (S n) url w = (Ok blob, after_attempts url 1 0 w).
Proof.
  intros Hok. simpl. unfold try_except. rewrite get_json_attempt, Hok. reflexivity.
Qed.

Lemma retry_loop_success (n : nat) :
  forall (k : nat) (w : world) (blob : json),
    (k < n)%nat ->
    (forall j, (j < k)%nat -> is_ok (attempt E url w j) = false) ->
    attempt E url w k = Ok blob ->
    retry_loop E n url w = (Ok blob, after_attempts url (S k) k w).
Proof.
  induction n as [|n IH]; intros k w blob Hk Hfail Hok; [lia|].
  destruct k as [|k].
  - apply retry_loop_succeeded. exact Hok.
  - rewrite retry_loop_failed by (apply Hfail; lia).
    rewrite (IH k _ blob).
    + rewrite after_attempts_step. reflexivity.
    + lia.
    + intros j Hj. rewrite attempt_shift. apply Hfail. lia.
    + rewrite attempt_shift. exact Hok.
Qed.

Lemma retry_loop_exhausted (n : nat) :
  forall w : world,
    (forall j, (j < n)%nat -> is_ok (attempt E url w j) = false) ->
    retry_loop E n url w
    = (Raise (Exception ("Too many retries for " ++ url)), after_attempts url n n w).
Proof.
  induction n as [|n IH]; intros w Hfail.
  - simpl. unfold raise. rewrite after_no_attempt. reflexivity.
  - rewrite retry_loop_failed by (apply Hfail; lia).
    rewrite IH.
    + rewrite after_attempts_step. reflexivity.
    + intros j Hj. rewrite attempt_shift. apply Hfail. lia.
Qed.

(** The loop ends in one of two ways: some attempt [k < n] succeeded after
    [k] failures, or all [n] attempts failed. *)
Lemma retry_loop_cases (n : nat) :
  forall w : world,
    (exists k blob,
        (k < n)%nat
        /\ retry_loop E n url w = (Ok blob, after_attempts url (S k) k w))
    \/ retry_loop E n url w
       = (Raise (Exception ("Too many retries for " ++ url)), after_attempts url n n w).
Proof.
  induction n as [|n IH]; intros w.
  - right. apply retry_loop_exhausted. intros j Hj. lia.
  - destruct (attempt E url w 0) as [blob|e] eqn:H0.
    + left. exists O, blob. split; [lia|]. apply retry_loop_succeeded. exact H0.
    + rewrite retry_loop_failed by (rewrite H0; reflexivity).
      destruct (IH (after_attempts url 1 1 w)) as [(k & blob & Hk & Hr) | Hr];
        rewrite Hr, after_attempts_step.
      * left. exists (S k), blob. split; [lia | reflexivity].
      * right. reflexivity.
Qed.

(** C5, as the code has it.  [_retry_get] makes at most three requests.
    It returns the JSON decoded from the first response whose [json()]
    does not raise, whatever the status code of that response, after one
    logged failure and one second of sleep per earlier attempt; when the
    three attempts all raise, it raises [Exception] with the message
    ["Too many retries for "] followed by the URL. *)
Theorem C5_retry_get (w : world) :
  (forall (k : nat) (blob : json),
      (k < 3)%nat ->
      (forall j, (j < k)%nat -> is_ok (attempt E url w j) = false) ->
      attempt E url w k = Ok blob ->
      _retry_get E url w = (Ok blob, after_attempts url (S k) k w))
  /\ ((forall j, (j < 3)%nat -> is_ok (attempt E url w j) = false) ->
      _retry_get E url w
      = (Raise (Exception ("Too many retries for " ++ url)), after_attempts url 3 3 w))
  /\ (List.length (requests (snd (_retry_get E url w)))
      <= List.length (requests w) + 3)%nat.
Proof.
  unfold _retry_get, MAX_RETRIES. split; [|split].
  - intros k blob. apply retry_loop_success.
  - apply retry_loop_exhausted.
  - destruct (retry_loop_cases 3 w) as [(k & blob & Hk & Hr) | Hr];
      rewrite Hr; cbn [snd after_attempts requests];
      rewrite length_app, repeat_length; lia.
Qed.

(** C6, as the code has it.  [_retry_get] sleeps one second after every
    failed attempt, the last one included: the time slept is the number
    of failed attempts, at most 3 seconds, and it is 3 seconds when the
    call raises and at most 2 when it returns. *)
Theorem C6_sleep_total (w : world) :
  let r := fst (_retry_get E url w) in
  let w' := snd (_retry_get E url w) in
  exists failures : nat,
    slept w' = slept w + Z.of_nat failures
    /\ log w' = (log w ++ repeat (LogInfo (retry_message url)) failures)%list
    /\ (List.length (requests w')
        = List.length (requests w) + failures + (if is_ok r then 1 else 0))%nat
    /\ (is_ok r = false -> failures = 3%nat)
    /\ (is_ok r = true -> (failures <= 2)%nat).
Proof.
  unfold _retry_get, MAX_RETRIES.
  destruct (retry_loop_cases 3 w) as [(k & blob & Hk & Hr) | Hr]; rewrite Hr;
    cbn [fst snd after_attempts requests slept log is_ok].
  - exists k. repeat split; auto.
    + rewrite length_app, repeat_length. lia.
    + discriminate.
    + intros _. lia.
  - exists 3%nat. repeat split; auto.
    + rewrite length_app, repeat_length. lia.
    + discriminate.
Qed.

End Fetcher.

(* ================================================================== *)
(** ** The two decoding loops of [from_experimenter] *)

Section Loops.

Import ExperimentCollection.

(** One turn of the legacy loop. *)
Lemma legacy_loop_cons (experiment : json) (rest : list json)
    (acc : list Experiment.t) (w : world) :
  legacy_loop (experiment :: rest) acc w
  = match getitem experiment "type" with
    | Raise e => (Raise e, w)
    | Ok ty =>
        if eq_str ty "rapid" then legacy_loop rest acc w
        else
          match ExperimentV1.from_dict experiment with
          | Ok v1 =>
              legacy_loop rest (acc ++ [ExperimentV1.to_experiment v1])%list
                (noted "ExperimentV1" experiment w)
          | Raise e =>
              on_failure e experiment (noted "ExperimentV1" experiment w)
                (legacy_loop rest acc)
          end
    end.
Proof.
  simpl. unfold bind at 1. unfold lift at 1.
  destruct (getitem experiment "type") as [ty|e]; [|reflexivity].
  destruct (eq_str ty "rapid"); simpl; [reflexivity|].
  unfold bind at 1. unfold try_except, bind, note_decode, lift, noted. simpl.
  destruct (ExperimentV1.from_dict experiment) as [v1|e]; simpl; [reflexivity|].
  unfold on_failure, log_failure, bind, lift, logged.
  destruct (getitem experiment "slug") as [slug|e']; reflexivity.
Qed.

(** One turn of the V6 loop. *)
Lemma nimbus_loop_cons (E : env) (experiment : json) (rest : list json)
    (acc : list Experiment.t) (w : world) :
  nimbus_loop E (experiment :: rest) acc w
  = match ExperimentV6.from_dict experiment with
    | Ok v6 =>
        match ExperimentV6.to_experiment E v6 (noted "ExperimentV6" experiment w) with
        | (Ok ex, w') => nimbus_loop E rest (acc ++ [ex])%list w'
        | (Raise e, w') => on_failure e experiment w' (nimbus_loop E rest acc)
        end
    | Raise e =>
        on_failure e experiment (noted "ExperimentV6" experiment w)
          (nimbus_loop E rest acc)
    end.
Proof.
  simpl. unfold bind at 1. unfold try_except, bind at 1, note_decode, noted. simpl.
  unfold bind at 1, lift at 1.
  destruct (ExperimentV6.from_dict experiment) as [v6|e]; simpl.
  - unfold bind at 1.
    destruct (ExperimentV6.to_experiment E v6 _) as [[ex|e] w']; simpl; [reflexivity|].
    unfold on_failure, log_failure, bind, lift, logged.
    destruct (getitem experiment "slug") as [slug|e']; reflexivity.
  - unfold on_failure, log_failure, bind, lift, logged.
    destruct (getitem experiment "slug") as [slug|e']; reflexivity.
Qed.

End Loops.

(* ================================================================== *)
(** ** Conversion of V6 records: the status and the clock *)

Section NimbusConversion.

Import ExperimentV6.

Variable E : env.

(** With an end date that carries an offset, the status compares the
    instant of the end date to the machine's local date and time read as
    if it were UTC. *)
Lemma status_of_aware (d : datetime) (off : Z) (w : world) :
  utcoffset d = Some off ->
  let c := clock_at E (clock_reads w) in
  status_of E (Some d) w
  = (Ok (if (utc_now c + local_utcoffset c <=? wall_us d - off)%Z
         then "Live" else "Complete"),
     snd (read_clock E w)).
Proof.
  intros Hoff c. unfold status_of, bind, read_clock, lift, utc_localize, now, ge.
  simpl. rewrite Hoff. unfold ret. rewrite Z.sub_0_r. reflexivity.
Qed.

(** Converting a V6 record makes no request, logs nothing and decodes
    nothing; what it yields has type ["v6"]. *)
Lemma to_experiment_effects (self : ExperimentV6.t) (w : world) :
  let r := fst (to_experiment E self w) in
  let w' := snd (to_experiment E self w) in
  decode_calls w' = decode_calls w
  /\ log w' = log w
  /\ requests w' = requests w
  /\ slept w' = slept w
  /\ forall ex, r = Ok ex -> Experiment.type ex = "v6".
Proof.
  unfold to_experiment, status_of, bind, read_clock, lift, utc_localize, now, ge, ret.
  destruct (endDate self) as [d|]; simpl.
  - destruct (utcoffset d) as [off|]; simpl; repeat split; try discriminate.
    intros ex H. injection H as <-. reflexivity.
  - repeat split. intros ex H. injection H as <-. reflexivity.
Qed.

(** The status of a converted V6 record, in general: [Live] when there is
    no end date; otherwise [Live] exactly when the end date is not before
    the local date and time of the machine taken as UTC. *)
Lemma to_experiment_status (self : ExperimentV6.t) (w : world) :
  let c := clock_at E (clock_reads w) in
  match endDate self with
  | None =>
      exists ex, fst (to_experiment E self w) = Ok ex
                 /\ Experiment.status ex = Some "Live"
  | Some d =>
      forall i, instant d = Some i ->
        exists ex, fst (to_experiment E self w) = Ok ex
                   /\ Experiment.status ex
                      = Some (if (utc_now c + local_utcoffset c <=? i)%Z
                              then "Live" else "Complete")
  end.
Proof.
  intros c. unfold to_experiment. destruct (endDate self) as [d|] eqn:Hd.
  - intros i Hi. unfold instant in Hi.
    destruct (utcoffset d) as [off|] eqn:Hoff; [|discriminate].
    simpl in Hi. injection Hi as <-.
    unfold bind. rewrite (status_of_aware d off w Hoff). simpl.
    eexists. split; reflexivity.
  - simpl. eexists. split; reflexivity.
Qed.

(** On a machine whose local time zone is UTC the status is the one the
    specification describes: [Live] when the end date is missing or not
    before the current UTC time, [Complete] otherwise. *)
Lemma to_experiment_status_on_utc_machine (self : ExperimentV6.t) (w : world)
    (d : datetime) (i : Z) :
  local_utcoffset (clock_at E (clock_reads w)) = 0 ->
  endDate self = Some d ->
  instant d = Some i ->
  exists ex,
    fst (to_experiment E self w) = Ok ex
    /\ (Experiment.status ex = Some "Live"
        <-> utc_now (clock_at E (clock_reads w)) <= i)
    /\ (Experiment.status ex = Some "Complete"
        <-> i < utc_now (clock_at E (clock_reads w))).
Proof.
  intros Hutc Hd Hi.
  pose proof (to_experiment_status self w) as H. simpl in H.
  rewrite Hd in H. destruct (H i Hi) as (ex & Hex & Hst).
  exists ex. split; [exact Hex|]. rewrite Hst, Hutc, Z.add_0_r.
  destruct (Z.leb_spec (utc_now (clock_at E (clock_reads w))) i).
  - split; split; intros; try lia; try reflexivity; discriminate.
  - split; split; intros; try lia; try reflexivity; discriminate.
Qed.

End NimbusConversion.

(* ================================================================== *)
(** ** The collection built by [from_experimenter] *)

Section Collection.

Import ExperimentCollection.

(** [str] of a decoded value is ["rapid"] only for the string ["rapid"]. *)
Lemma str_rapid (j : json) : str j = "rapid" -> eq_str j "rapid" = true.
Proof.
  destruct j as [|b|n|s|items|fields]; simpl; try discriminate.
  - destruct b; discriminate.
  - unfold str_of_int. destruct (Z.to_int n) as [u|u]; simpl; [|discriminate].
    destruct u; simpl; discriminate.
  - intros ->. reflexivity.
Qed.

Lemma not_rapid_type (d ty : json) :
  getitem d "type" = Ok ty -> eq_str ty "rapid" = false ->
  getitem d "type" <> Ok (JStr "rapid").
Proof.
  intros Hty Hne Heq. rewrite Hty in Heq. injection Heq as ->. discriminate.
Qed.

Lemma nrd_refl (w w' : world) :
  decode_calls w' = decode_calls w -> no_rapid_decoded w w'.
Proof.
  intros Heq d Hd. left. rewrite <- Heq. exact Hd.
Qed.

Lemma nrd_trans (w1 w2 w3 : world) :
  no_rapid_decoded w1 w2 -> no_rapid_decoded w2 w3 -> no_rapid_decoded w1 w3.
Proof.
  intros H12 H23 d Hd. destruct (H23 d Hd) as [H|H]; [auto | right; exact H].
Qed.

Lemma nrd_noted_v1 (d : json) (w : world) :
  getitem d "type" <> Ok (JStr "rapid") ->
  no_rapid_decoded w (noted "ExperimentV1" d w).
Proof.
  intros Hne d' Hd'. unfold noted in Hd'. simpl in Hd'.
  apply in_app_or in Hd'. destruct Hd' as [H|[H|[]]]; [left; exact H|].
  injection H as <-. right. exact Hne.
Qed.

Lemma nrd_noted_v6 (d : json) (w : world) :
  no_rapid_decoded w (noted "ExperimentV6" d w).
Proof.
  intros d' Hd'. unfold noted in Hd'. simpl in Hd'.
  apply in_app_or in Hd'. destruct Hd' as [H|[H|[]]]; [left; exact H|].
  discriminate.
Qed.

Lemma nrd_on_failure {A} (e : exn) (d : json) (w : world)
    (continue : world -> result A * world) :
  (forall w0, no_rapid_decoded w0 (snd (continue w0))) ->
  no_rapid_decoded w (snd (on_failure e d w continue)).
Proof.
  intros Hc. unfold on_failure. destruct (getitem d "slug") as [slug|e'].
  - eapply nrd_trans; [|apply Hc]. apply nrd_refl. reflexivity.
  - apply nrd_refl. reflexivity.
Qed.

(** The legacy loop never hands a record of type ["rapid"] to the decoder,
    however the loop ends. *)
Lemma legacy_loop_trace (items : list json) :
  forall (acc : list Experiment.t) (w : world),
    no_rapid_decoded w (snd (legacy_loop items acc w)).
Proof.
  induction items as [|d rest IH]; intros acc w.
  - apply nrd_refl. reflexivity.
  - rewrite legacy_loop_cons.
    destruct (getitem d "type") as [ty|e] eqn:Hty; [|apply nrd_refl; reflexivity].
    destruct (eq_str ty "rapid") eqn:Hne; [apply IH|].
    pose proof (nrd_noted_v1 d w (not_rapid_type d ty Hty Hne)) as Hn.
    destruct (ExperimentV1.from_dict d) as [v1|e].
    + eapply nrd_trans; [exact Hn | apply IH].
    + eapply nrd_trans; [exact Hn|]. apply nrd_on_failure. intros w0. apply IH.
Qed.

Lemma nimbus_loop_trace (E : env) (items : list json) :
  forall (acc : list Experiment.t) (w : world),
    no_rapid_decoded w (snd (nimbus_loop E items acc w)).
Proof.
  induction items as [|d rest IH]; intros acc w.
  - apply nrd_refl. reflexivity.
  - rewrite nimbus_loop_cons.
    pose proof (nrd_noted_v6 d w) as Hn.
    destruct (ExperimentV6.from_dict d) as [v6|e].
    + pose proof (to_experiment_effects E v6 (noted "ExperimentV6" d w)) as Heff.
      simpl in Heff. destruct Heff as (Hdc & _).
      destruct (ExperimentV6.to_experiment E v6 (noted "ExperimentV6" d w))
        as [[ex|e] w'] eqn:Hrun; simpl in Hdc.
      * eapply nrd_trans; [exact Hn|]. eapply nrd_trans; [|apply IH].
        apply nrd_refl. exact Hdc.
      * eapply nrd_trans; [exact Hn|].
        eapply nrd_trans; [apply nrd_refl; exact Hdc|].
        apply nrd_on_failure. intros w0. apply IH.
    + eapply nrd_trans; [exact Hn|]. apply nrd_on_failure. intros w0. apply IH.
Qed.

(** No experiment of type ["rapid"] comes out of the legacy loop. *)
Lemma legacy_loop_types (items : list json) :
  forall (acc res : list Experiment.t) (w w' : world),
    Forall (fun ex => Experiment.type ex <> "rapid") acc ->
    legacy_loop items acc w = (Ok res, w') ->
    Forall (fun ex => Experiment.type ex <> "rapid") res.
Proof.
  induction items as [|d rest IH]; intros acc res w w' Hacc Hrun.
  - simpl in Hrun. injection Hrun as <- _. exact Hacc.
  - rewrite legacy_loop_cons in Hrun.
    destruct (getitem d "type") as [ty|e] eqn:Hty; [|discriminate].
    destruct (eq_str ty "rapid") eqn:Hne; [eapply IH; eassumption|].
    destruct (ExperimentV1.from_dict d) as [v1|e] eqn:Hdec.
    + eapply IH; [|exact Hrun]. apply Forall_app. split; [exact Hacc|].
      constructor; [|constructor]. simpl.
      destruct (from_dict_v1_fields d v1 Hdec) as ((ty' & Hty' & Htype) & _).
      rewrite Hty in Hty'. injection Hty' as <-. rewrite Htype.
      intros Hrapid. apply str_rapid in Hrapid. congruence.
    + unfold on_failure in Hrun.
      destruct (getitem d "slug"); [eapply IH; eassumption | discriminate].
Qed.

Lemma nimbus_loop_types (E : env) (items : list json) :
  forall (acc res : list Experiment.t) (w w' : world),
    Forall (fun ex => Experiment.type ex <> "rapid") acc ->
    nimbus_loop E items acc w = (Ok res, w') ->
    Forall (fun ex => Experiment.type ex <> "rapid") res.
Proof.
  induction items as [|d rest IH]; intros acc res w w' Hacc Hrun.
  - simpl in Hrun. injection Hrun as <- _. exact Hacc.
  - rewrite nimbus_loop_cons in Hrun.
    destruct (ExperimentV6.from_dict d) as [v6|e].
    + pose proof (to_experiment_effects E v6 (noted "ExperimentV6" d w)) as Heff.
      simpl in Heff. destruct Heff as (_ & _ & _ & _ & Hty).
      destruct (ExperimentV6.to_experiment E v6 (noted "ExperimentV6" d w))
        as [[ex|e] w1]; simpl in Hty.
      * eapply IH; [|exact Hrun]. apply Forall_app. split; [exact Hacc|].
        constructor; [|constructor]. rewrite (Hty ex eq_refl). discriminate.
      * unfold on_failure in Hrun.
        destruct (getitem d "slug"); [eapply IH; eassumption | discriminate].
    + unfold on_failure in Hrun.
      destruct (getitem d "slug"); [eapply IH; eassumption | discriminate].
Qed.

Lemma retry_get_trace (E : env) (url : string) (w : world) :
  no_rapid_decoded w (snd (_retry_get E url w)).
Proof.
  apply nrd_refl. unfold _retry_get.
  destruct (retry_loop_cases E url MAX_RETRIES w) as [(k & blob & _ & Hr) | Hr];
    rewrite Hr; reflexivity.
Qed.

(** C3.  However a run of [from_experimenter] ends, the legacy records it
    handed to the decoder were not of type ["rapid"]; and when the run
    returns a collection, no experiment in it has type ["rapid"]. *)
Theorem C3_rapid_excluded (E : env) (w w' : world)
    (r : result ExperimentCollection.t)
    (Hrun : from_experimenter E w = (r, w')) :
  no_rapid_decoded w w'
  /\ forall coll, r = Ok coll ->
       Forall (fun ex => Experiment.type ex <> "rapid") coll.
Proof.
  unfold from_experimenter in Hrun. unfold bind at 1 in Hrun.
  pose proof (retry_get_trace E EXPERIMENTER_API_URL_V1 w) as T1.
  destruct (_retry_get E EXPERIMENTER_API_URL_V1 w) as [[j1|e] w1];
    simpl in T1; [|injection Hrun as <- <-; split; [exact T1 | discriminate]].
  unfold bind at 1, lift at 1 in Hrun.
  destruct (iter j1) as [items1|e];
    [|injection Hrun as <- <-; split; [exact T1 | discriminate]].
  unfold bind at 1 in Hrun.
  pose proof (legacy_loop_trace items1 [] w1) as T2.
  pose proof (legacy_loop_types items1 [] ) as P2.
  destruct (legacy_loop items1 [] w1) as [[legacy|e] w2] eqn:H2; simpl in T2;
    [|injection Hrun as <- <-; split; [eapply nrd_trans; eassumption | discriminate]].
  specialize (P2 legacy w1 w2 (Forall_nil _) H2).
  unfold bind at 1 in Hrun.
  pose proof (retry_get_trace E EXPERIMENTER_API_URL_V6 w2) as T3.
  destruct (_retry_get E EXPERIMENTER_API_URL_V6 w2) as [[j2|e] w3]; simpl in T3;
    [|injection Hrun as <- <-; split;
      [eapply nrd_trans; [eapply nrd_trans|]; eassumption | discriminate]].
  unfold bind at 1, lift at 1 in Hrun.
  destruct (iter j2) as [items2|e];
    [|injection Hrun as <- <-; split;
      [eapply nrd_trans; [eapply nrd_trans|]; eassumption | discriminate]].
  unfold bind at 1 in Hrun.
  pose proof (nimbus_loop_trace E items2 [] w3) as T4.
  pose proof (nimbus_loop_types E items2 []) as P4.
  destruct (nimbus_loop E items2 [] w3) as [[nimbus|e] w4] eqn:H4; simpl in T4;
    [|injection Hrun as <- <-; split;
      [eapply nrd_trans; [eapply nrd_trans; [eapply nrd_trans|]|]; eassumption
      | discriminate]].
  specialize (P4 nimbus w3 w4 (Forall_nil _) H4).
  unfold ret in Hrun. injection Hrun as <- <-. split.
  - eapply nrd_trans; [eapply nrd_trans; [eapply nrd_trans|]|]; eassumption.
  - intros coll H. injection H as <-. apply Forall_app. split; assumption.
Qed.

End Collection.

(* ================================================================== *)
(** ** Batches with records that do not decode *)

Section Batches.

Import ExperimentCollection.

Lemma has_key_getitem (k : string) (d : json) :
  has_key k d -> exists v, getitem d k = Ok v.
Proof.
  intros (fields & v & -> & Hv). exists v. simpl. rewrite Hv. reflexivity.
Qed.

(** When every legacy record carries its type and its slug, the loop goes
    through the whole batch: it returns the conversions of the records
    that decode, the others being logged and dropped. *)
Lemma legacy_loop_survives (items : list json) :
  Forall (fun d => has_key "type" d /\ has_key "slug" d) items ->
  forall (acc : list Experiment.t) (w : world),
    fst (legacy_loop items acc w) = Ok (acc ++ legacy_results items)%list.
Proof.
  induction 1 as [|d rest [Hty Hslug] _ IH]; intros acc w.
  - simpl. rewrite app_nil_r. reflexivity.
  - rewrite legacy_loop_cons. unfold legacy_results. simpl flat_map.
    fold (legacy_results rest).
    destruct (has_key_getitem _ _ Hty) as (ty & ->).
    destruct (has_key_getitem _ _ Hslug) as (slug & Hs).
    destruct (eq_str ty "rapid"); [apply IH|].
    destruct (ExperimentV1.from_dict d) as [v1|e].
    + rewrite IH, <- app_assoc. reflexivity.
    + unfold on_failure. rewrite Hs. apply IH.
Qed.

(** When every V6 record carries its slug, the loop goes through the
    whole batch. *)
Lemma nimbus_loop_survives (E : env) (items : list json) :
  Forall (has_key "slug") items ->
  forall (acc : list Experiment.t) (w : world),
    exists res, fst (nimbus_loop E items acc w) = Ok res.
Proof.
  induction 1 as [|d rest Hslug _ IH]; intros acc w.
  - exists acc. reflexivity.
  - rewrite nimbus_loop_cons.
    destruct (has_key_getitem _ _ Hslug) as (slug & Hs).
    destruct (ExperimentV6.from_dict d) as [v6|e].
    + destruct (ExperimentV6.to_experiment E v6 _) as [[ex|e] w'].
      * apply IH.
      * unfold on_failure. rewrite Hs. apply IH.
    + unfold on_failure. rewrite Hs. apply IH.
Qed.

Lemma retry_get_serving (legacy nimbus : json) (c : clock) (url : string) (w : world) :
  _retry_get (Samples.serving legacy nimbus c) url w
  = (Ok (if String.eqb url EXPERIMENTER_API_URL_V1 then legacy else nimbus),
     after_attempts url 1 0 w).
Proof.
  unfold _retry_get, MAX_RETRIES. apply retry_loop_succeeded.
  unfold attempt, Samples.serving, Samples.ok_response. simpl.
  destruct (String.eqb url EXPERIMENTER_API_URL_V1); reflexivity.
Qed.

(** A batch whose records all carry the keys the loops read outside the
    decoder is never lost, whatever else is wrong with its records. *)
Lemma from_experimenter_survives (legacy nimbus : list json) (c : clock) (w : world) :
  Forall (fun d => has_key "type" d /\ has_key "slug" d) legacy ->
  Forall (has_key "slug") nimbus ->
  exists coll,
    fst (from_experimenter (Samples.serving (JArr legacy) (JArr nimbus) c) w) = Ok coll.
Proof.
  intros Hl Hn. unfold from_experimenter.
  unfold bind at 1. rewrite retry_get_serving.
  unfold bind at 1, lift at 1. simpl iter. cbv iota beta.
  unfold bind at 1.
  pose proof (legacy_loop_survives legacy Hl [] (after_attempts EXPERIMENTER_API_URL_V1 1 0 w)) as H1.
  destruct (legacy_loop legacy [] _) as [[res1|e] w1]; simpl in H1; [|discriminate].
  unfold bind at 1. rewrite retry_get_serving.
  unfold bind at 1, lift at 1. simpl iter. cbv iota beta.
  unfold bind at 1.
  destruct (nimbus_loop_survives (Samples.serving (JArr legacy) (JArr nimbus) c)
              nimbus Hn [] (after_attempts EXPERIMENTER_API_URL_V6 1 0 w1)) as (res2 & H2).
  destruct (nimbus_loop _ nimbus [] _) as [[res|e] w2]; simpl in H2; [|discriminate].
  eexists. reflexivity.
Qed.

End Batches.

(* ================================================================== *)
(** ** The code on concrete inputs *)

Section Runs.

Import ExperimentCollection Samples.

(** C1.  On a machine two hours east of UTC, at 2021-01-01T00:00:00Z, a V6
    record whose [endDate] is 2021-01-01T01:00:00Z, one hour in the
    future, converts to status ["Complete"]: the code compares the end
    date to the local 02:00 read as UTC. *)
Lemma C1_local_time_read_as_utc :
  let E := serving (JArr []) (JArr [ending_soon]) cairo_clock in
  exists v6 d ex,
    ExperimentV6.from_dict ending_soon = Ok v6
    /\ ExperimentV6.endDate v6 = Some d
    /\ instant d = Some (new_year_2021 + hour_us)
    /\ utc_now (clock_at E (clock_reads start)) = new_year_2021
    /\ fst (ExperimentV6.to_experiment E v6 start) = Ok ex
    /\ Experiment.status ex = Some "Complete".
Proof.
  intros E. eexists. eexists. eexists.
  split; [vm_compute; reflexivity|].
  split; [reflexivity|].
  split; [vm_compute; reflexivity|].
  split; [reflexivity|].
  split; vm_compute; reflexivity.
Qed.

(** C4.  A V6 batch whose first record lacks its slug: the record does
    not decode, the handler looks up [experiment["slug"]] and the
    [KeyError] it gets ends [from_experimenter], although the second
    record of the batch decodes.  The same happens to a legacy batch with
    a record that lacks its type, which is read outside the [try]. *)
Lemma C4_record_without_slug_aborts :
  (ExperimentV6.from_dict nameless_record = Raise TypeError
   /\ is_ok (ExperimentV6.from_dict (nimbus_record "open" JNull)) = true
   /\ fst (from_experimenter nameless_service start) = Raise (KeyError "slug"))
  /\ fst (from_experimenter typeless_service start) = Raise (KeyError "type").
Proof.
  repeat split; vm_compute; reflexivity.
Qed.

(** A response with status 500 and a JSON body is returned by
    [_retry_get] as a success, after a single request and no sleep. *)
Lemma C5_error_status_not_retried :
  http_get failing_server EXPERIMENTER_API_URL_V1 0
    = Ok {| status_code := 500; json_body := Ok error_document |}
  /\ _retry_get failing_server EXPERIMENTER_API_URL_V1 start
     = (Ok error_document,
        {| requests := [EXPERIMENTER_API_URL_V1]; clock_reads := 0;
           slept := 0; log := []; decode_calls := [] |}).
Proof.
  split; reflexivity.
Qed.

(** Three failed attempts: the third is followed by a sleep of its
    own, three seconds in all. *)
Lemma C6_three_pauses :
  let w' := snd (_retry_get unreachable EXPERIMENTER_API_URL_V1 start) in
  List.length (requests w') = 3%nat
  /\ slept w' = 3
  /\ ~ slept w' <= 2.
Proof.
  vm_compute. repeat split. intros H. apply H. reflexivity.
Qed.

(** A legacy record that decodes with a null [proposed_enrollment] is
    refused once the key is removed: the attribute has no default. *)
Lemma proposed_enrollment_key_required :
  ExperimentV1.from_dict legacy_record = Ok legacy_decoded
  /\ lookup "proposed_enrollment" legacy_base = None
  /\ ExperimentV1.from_dict (JObj legacy_base) = Raise TypeError.
Proof.
  repeat split; vm_compute; reflexivity.
Qed.

Lemma C3_rapid_excluded_witness :
  no_rapid_decoded start (snd (from_experimenter mixed_service start))
  /\ forall coll,
       fst (from_experimenter mixed_service start) = Ok coll ->
       Forall (fun ex => Experiment.type ex <> "rapid") coll.
Proof.
  apply (C3_rapid_excluded mixed_service start).
  destruct (from_experimenter mixed_service start). reflexivity.
Defined.

Lemma C5_retry_get_witness :
  _retry_get (flaky error_document) EXPERIMENTER_API_URL_V6 start
  = (Ok error_document, after_attempts EXPERIMENTER_API_URL_V6 3 2 start).
Proof.
  apply (proj1 (C5_retry_get (flaky error_document) EXPERIMENTER_API_URL_V6 start)).
  - lia.
  - intros j Hj. destruct j as [|[|j]]; [reflexivity | reflexivity | lia].
  - reflexivity.
Defined.


Lemma C10_is_high_population_witness :
  Experiment.is_high_population (ExperimentV1.to_experiment legacy_decoded) = true
  <-> ExperimentV1.is_high_population legacy_decoded = Some true.
Proof.
  apply (C10_is_high_population legacy_record legacy_decoded).
  vm_compute. reflexivity.
Defined.

End Runs.

(* ================================================================== *)
(** ** The other filters of [ExperimentCollection] *)

Section MoreFilters.

Import ExperimentCollection.

Lemma is_slug_spec (attribute : option string) (slug : string) :
  is_slug attribute slug = true <-> attribute = Some slug.
Proof.
  destruct attribute as [s|]; simpl.
  - rewrite String.eqb_eq. split; [intros ->; reflexivity | intros H; injection H; auto].
  - split; discriminate.
Qed.

Lemma existsb_eqb (s : string) (l : list string) :
  existsb (String.eqb s) l = true <-> In s l.
Proof.
  rewrite existsb_exists. split.
  - intros (x & Hx & Heq). apply String.eqb_eq in Heq. subst. exact Hx.
  - intros H. exists s. split; [exact H | apply String.eqb_refl].
Qed.

Lemma launched_spec (ex : Experiment.t) :
  status_launched (Experiment.status ex) = true <-> launched ex.
Proof.
  apply status_launched_spec.
Qed.

(** X1.  [of_type] keeps, in their order, exactly the experiments whose
    type equals the given string, or belongs to the given container; a
    single string stands for the container holding it alone, so it is
    compared as a whole and not as a set of characters; an empty
    container selects nothing. *)
Theorem X1_of_type (c : ExperimentCollection.t) :
  (forall s ex, In ex (of_type c (OneType s)) <-> In ex c /\ Experiment.type ex = s)
  /\ (forall types ex,
         In ex (of_type c (ManyTypes types))
         <-> In ex c /\ In (Experiment.type ex) types)
  /\ (forall arg c', of_type (c ++ c')%list arg = (of_type c arg ++ of_type c' arg)%list)
  /\ of_type c (ManyTypes []) = [].
Proof.
  split; [|split; [|split]].
  - intros s ex. unfold of_type. rewrite filter_In. simpl.
    rewrite orb_false_r, String.eqb_eq. reflexivity.
  - intros types ex. unfold of_type. rewrite filter_In, existsb_eqb. reflexivity.
  - intros arg c'. unfold of_type. apply filter_app.
  - unfold of_type. simpl. induction c as [|x l IH]; simpl; auto.
Qed.

(** X2.  [with_slug] keeps, in their order, exactly the experiments whose
    [experimenter_slug] or whose [normandy_slug] is the given slug; an
    experiment that has neither slug is never selected. *)
Theorem X2_with_slug (c : ExperimentCollection.t) (slug : string) :
  (forall ex,
      In ex (with_slug c slug)
      <-> In ex c /\ (Experiment.experimenter_slug ex = Some slug
                      \/ Experiment.normandy_slug ex = Some slug))
  /\ (forall c', with_slug (c ++ c')%list slug
                 = (with_slug c slug ++ with_slug c' slug)%list)
  /\ (forall ex,
         Experiment.experimenter_slug ex = None ->
         Experiment.normandy_slug ex = None ->
         ~ In ex (with_slug c slug)).
Proof.
  split; [|split].
  - intros ex. unfold with_slug. rewrite filter_In, orb_true_iff, !is_slug_spec.
    reflexivity.
  - intros c'. unfold with_slug. apply filter_app.
  - intros ex H1 H2 Hin. unfold with_slug in Hin. apply filter_In in Hin.
    destruct Hin as [_ Hin]. rewrite H1, H2 in Hin. discriminate.
Qed.

Lemma filter_filter {A} (p q : A -> bool) (l : list A) :
  filter p (filter q l) = filter (fun x => q x && p x) l.
Proof.
  induction l as [|x l IH]; simpl; [reflexivity|].
  destruct (q x); simpl; [destruct (p x)|]; rewrite IH; reflexivity.
Qed.

Lemma filter_comm {A} (p q : A -> bool) (l : list A) :
  filter p (filter q l) = filter q (filter p l).
Proof.
  rewrite !filter_filter. apply filter_ext. intros x. apply andb_comm.
Qed.

Lemma filter_idem {A} (p : A -> bool) (l : list A) :
  filter p (filter p l) = filter p l.
Proof.
  rewrite filter_filter. apply filter_ext. intros x. destruct (p x); reflexivity.
Qed.

(** X3.  The three total filters can be chained in any order with the same
    result, and applying one of them twice changes nothing. *)
Theorem X3_filters_compose (c : ExperimentCollection.t)
    (arg : type_or_types) (slug : string) :
  (ever_launched (of_type c arg) = of_type (ever_launched c) arg
   /\ ever_launched (with_slug c slug) = with_slug (ever_launched c) slug
   /\ of_type (with_slug c slug) arg = with_slug (of_type c arg) slug)
  /\ (ever_launched (ever_launched c) = ever_launched c
      /\ of_type (of_type c arg) arg = of_type c arg
      /\ with_slug (with_slug c slug) slug = with_slug c slug).
Proof.
  unfold ever_launched, of_type, with_slug.
  repeat split; first [apply filter_comm | apply filter_idem].
Qed.

End MoreFilters.

(* ================================================================== *)
(** ** The date filters [started_since] and [end_on_or_after] *)

Section DateFilters.

Import ExperimentCollection.

Lemma comprehension_Ok {A} (cond : A -> result bool) (l : list A) :
  forall res,
    comprehension cond l = Ok res ->
    res = filter (holds cond) l /\ Forall (fun x => is_ok (cond x) = true) l.
Proof.
  induction l as [|x l IH]; simpl; intros res H.
  - injection H as <-. split; [reflexivity | constructor].
  - unfold holds at 1. destruct (cond x) as [b|e] eqn:Hx; simpl in H; [|discriminate].
    destruct (comprehension cond l) as [kept|e]; simpl in H; [|discriminate].
    injection H as <-. destruct (IH kept eq_refl) as [-> Hall].
    split; [reflexivity | constructor; [rewrite Hx; reflexivity | exact Hall]].
Qed.

Lemma comprehension_total {A} (cond : A -> result bool) (l : list A) :
  Forall (fun x => is_ok (cond x) = true) l ->
  comprehension cond l = Ok (filter (holds cond) l).
Proof.
  induction 1 as [|x l Hx _ IH]; simpl; [reflexivity|].
  unfold holds at 1. destruct (cond x) as [b|e]; [|discriminate].
  simpl. rewrite IH. reflexivity.
Qed.

Lemma comprehension_Raise {A} (cond : A -> result bool) (l : list A) :
  forall e,
    comprehension cond l = Raise e -> exists x, In x l /\ cond x = Raise e.
Proof.
  induction l as [|x l IH]; simpl; intros e H; [discriminate|].
  destruct (cond x) as [b|e'] eqn:Hx; simpl in H.
  - destruct (comprehension cond l) as [kept|e'']; simpl in H; [discriminate|].
    injection H as ->. destruct (IH e eq_refl) as (y & Hy & Hc). eauto.
  - injection H as ->. eauto.
Qed.

Lemma ge_is_ok (a b : datetime) :
  is_ok (ge a b) = Bool.eqb (aware a) (aware b).
Proof.
  unfold ge, aware. destruct (utcoffset a), (utcoffset b); reflexivity.
Qed.

Lemma ge_Raise (a b : datetime) (e : exn) : ge a b = Raise e -> e = TypeError.
Proof.
  unfold ge. destruct (utcoffset a), (utcoffset b); intros H;
    first [discriminate | injection H; auto].
Qed.

Lemma ge_instants (a b : datetime) (j : Z) :
  instant b = Some j ->
  ge a b = Ok true <-> exists i, instant a = Some i /\ j <= i.
Proof.
  unfold instant, ge. destruct (utcoffset b) as [ob|]; [|discriminate].
  simpl. intros H. injection H as <-.
  destruct (utcoffset a) as [oa|]; simpl.
  - split.
    + intros H. injection H as H. apply Z.leb_le in H. eauto.
    + intros (i & Hi & Hle). injection Hi as <-.
      f_equal. apply Z.leb_le. exact Hle.
  - split; [discriminate | intros (i & Hi & _); discriminate].
Qed.

Lemma started_cond_holds (since : datetime) (j : Z) (ex : Experiment.t) :
  instant since = Some j ->
  holds (started_cond since) ex = true
  <-> exists d i, Experiment.start_date ex = Some d /\ instant d = Some i /\ j <= i.
Proof.
  intros Hj. unfold holds, started_cond.
  destruct (Experiment.start_date ex) as [d|].
  - pose proof (ge_instants d since j Hj) as Hge.
    destruct (ge d since) as [b|e].
    + split.
      * intros ->. destruct (proj1 Hge eq_refl) as (i & Hi & Hle).
        exists d, i. auto.
      * intros (d' & i & Hd & Hi & Hle). injection Hd as <-.
        assert (H : Ok b = Ok true) by (apply Hge; eauto). injection H; auto.
    + split; [discriminate|].
      intros (d' & i & Hd & Hi & Hle). injection Hd as <-.
      assert (H : @Raise bool e = Ok true) by (apply Hge; eauto). discriminate.
  - split; [discriminate | intros (d & i & Hd & _); discriminate].
Qed.

Lemma ending_cond_holds (after : datetime) (j : Z) (ex : Experiment.t) :
  instant after = Some j ->
  holds (ending_cond after) ex = true
  <-> Experiment.end_date ex = None
      \/ exists d i, Experiment.end_date ex = Some d /\ instant d = Some i /\ j <= i.
Proof.
  intros Hj. unfold holds, ending_cond.
  destruct (Experiment.end_date ex) as [d|].
  - pose proof (ge_instants d after j Hj) as Hge.
    destruct (ge d after) as [b|e].
    + split.
      * intros ->. destruct (proj1 Hge eq_refl) as (i & Hi & Hle).
        right. exists d, i. auto.
      * intros [Hd | (d' & i & Hd & Hi & Hle)]; [discriminate|]. injection Hd as <-.
        assert (H : Ok b = Ok true) by (apply Hge; eauto). injection H; auto.
    + split; [discriminate|].
      intros [Hd | (d' & i & Hd & Hi & Hle)]; [discriminate|]. injection Hd as <-.
      assert (H : @Raise bool e = Ok true) by (apply Hge; eauto). discriminate.
  - split; auto.
Qed.

(** X4.  When [started_since] returns for a bound that carries an offset,
    it returns, in their order, exactly the experiments of the collection
    that [ever_launched] keeps and whose start date is set and not before
    the bound; an experiment without start date is left out. *)
Theorem X4_started_since (c res : ExperimentCollection.t) (since : datetime) (j : Z)
    (Hsince : instant since = Some j)
    (Hrun : started_since c since = Ok res) :
  (forall ex,
      In ex res
      <-> In ex c /\ launched ex
          /\ exists d i, Experiment.start_date ex = Some d
                         /\ instant d = Some i /\ j <= i)
  /\ (exists keep, res = filter keep c)
  /\ (forall ex, Experiment.start_date ex = None -> ~ In ex res).
Proof.
  unfold started_since in Hrun. apply comprehension_Ok in Hrun.
  destruct Hrun as [-> _].
  assert (Hin : forall ex,
             In ex (filter (holds (started_cond since)) (ever_launched c))
             <-> In ex c /\ launched ex
                 /\ exists d i, Experiment.start_date ex = Some d
                                /\ instant d = Some i /\ j <= i).
  { intros ex. unfold ever_launched.
    rewrite !filter_In, launched_spec, (started_cond_holds since j ex Hsince).
    tauto. }
  split; [exact Hin | split].
  - unfold ever_launched. rewrite filter_filter. eexists. reflexivity.
  - intros ex Hnone Hex. apply Hin in Hex.
    destruct Hex as (_ & _ & d & i & Hd & _). congruence.
Qed.

(** X5.  When [end_on_or_after] returns for a bound that carries an
    offset, it returns, in their order, exactly the experiments of the
    collection that [ever_launched] keeps and whose end date is either
    not set or not before the bound. *)
Theorem X5_end_on_or_after (c res : ExperimentCollection.t) (after : datetime) (j : Z)
    (Hafter : instant after = Some j)
    (Hrun : end_on_or_after c after = Ok res) :
  (forall ex,
      In ex res
      <-> In ex c /\ launched ex
          /\ (Experiment.end_date ex = None
              \/ exists d i, Experiment.end_date ex = Some d
                             /\ instant d = Some i /\ j <= i))
  /\ (exists keep, res = filter keep c)
  /\ (forall ex, In ex c -> launched ex -> Experiment.end_date ex = None -> In ex res).
Proof.
  unfold end_on_or_after in Hrun. apply comprehension_Ok in Hrun.
  destruct Hrun as [-> _].
  assert (Hin : forall ex,
             In ex (filter (holds (ending_cond after)) (ever_launched c))
             <-> In ex c /\ launched ex
                 /\ (Experiment.end_date ex = None
                     \/ exists d i, Experiment.end_date ex = Some d
                                    /\ instant d = Some i /\ j <= i)).
  { intros ex. unfold ever_launched.
    rewrite !filter_In, launched_spec, (ending_cond_holds after j ex Hafter).
    tauto. }
  split; [exact Hin | split].
  - unfold ever_launched. rewrite filter_filter. eexists. reflexivity.
  - intros ex Hc Hl Hnone. apply Hin. auto.
Qed.

(** X6.  The two date filters return a collection exactly when every
    experiment kept by [ever_launched] that has the date in question is
    aware or naive like the bound; otherwise the comparison of a naive
    with an aware value raises [TypeError].  Experiments that
    [ever_launched] drops are not compared. *)
Theorem X6_date_filters_raise (c : ExperimentCollection.t) (bound : datetime) :
  ((exists res, started_since c bound = Ok res)
   <-> forall ex d, In ex c -> launched ex ->
         Experiment.start_date ex = Some d -> aware d = aware bound)
  /\ ((exists res, end_on_or_after c bound = Ok res)
      <-> forall ex d, In ex c -> launched ex ->
            Experiment.end_date ex = Some d -> aware d = aware bound)
  /\ (forall e, started_since c bound = Raise e -> e = TypeError)
  /\ (forall e, end_on_or_after c bound = Raise e -> e = TypeError).
Proof.
  unfold started_since, end_on_or_after.
  split; [|split; [|split]].
  - split.
    + intros (res & Hres) ex d Hc Hl Hd.
      apply comprehension_Ok in Hres. destruct Hres as [_ Hall].
      rewrite Forall_forall in Hall.
      assert (Hex : In ex (ever_launched c))
        by (unfold ever_launched; rewrite filter_In, launched_spec; auto).
      specialize (Hall ex Hex). unfold started_cond in Hall.
      rewrite Hd, ge_is_ok in Hall. apply eqb_prop in Hall. exact Hall.
    + intros H. eexists. apply comprehension_total. apply Forall_forall.
      intros ex Hex. unfold ever_launched in Hex.
      rewrite filter_In, launched_spec in Hex. destruct Hex as [Hc Hl].
      unfold started_cond. destruct (Experiment.start_date ex) as [d|] eqn:Hd;
        [|reflexivity].
      rewrite ge_is_ok, (H ex d Hc Hl Hd). apply eqb_reflx.
  - split.
    + intros (res & Hres) ex d Hc Hl Hd.
      apply comprehension_Ok in Hres. destruct Hres as [_ Hall].
      rewrite Forall_forall in Hall.
      assert (Hex : In ex (ever_launched c))
        by (unfold ever_launched; rewrite filter_In, launched_spec; auto).
      specialize (Hall ex Hex). unfold ending_cond in Hall.
      rewrite Hd, ge_is_ok in Hall. apply eqb_prop in Hall. exact Hall.
    + intros H. eexists. apply comprehension_total. apply Forall_forall.
      intros ex Hex. unfold ever_launched in Hex.
      rewrite filter_In, launched_spec in Hex. destruct Hex as [Hc Hl].
      unfold ending_cond. destruct (Experiment.end_date ex) as [d|] eqn:Hd;
        [|reflexivity].
      rewrite ge_is_ok, (H ex d Hc Hl Hd). apply eqb_reflx.
  - intros e H. apply comprehension_Raise in H. destruct H as (ex & _ & H).
    unfold started_cond in H. destruct (Experiment.start_date ex); [|discriminate].
    eapply ge_Raise; eassumption.
  - intros e H. apply comprehension_Raise in H. destruct H as (ex & _ & H).
    unfold ending_cond in H. destruct (Experiment.end_date ex); [|discriminate].
    eapply ge_Raise; eassumption.
Qed.

End DateFilters.

(* ================================================================== *)
(** ** The decoders and the conversions, field by field *)

Section Decoders.

Lemma getitem_has_key (d : json) (k : string) (v : json) :
  getitem d k = Ok v -> has_key k d.
Proof.
  destruct d; simpl; try discriminate.
  destruct (lookup k fields) as [v'|] eqn:Hl; [|discriminate].
  intros _. exists fields, v'. auto.
Qed.

Lemma field_required {A} (f : json -> result A) (d : json) (k : string)
    (g : option A) (a : A) :
  field f d k = Ok g -> required g = Ok a ->
  exists v, getitem d k = Ok v /\ f v = Ok a.
Proof.
  intros Hf Hr. apply required_Ok in Hr. subst. apply field_Some. exact Hf.
Qed.

(** What the legacy decoder read for each required attribute. *)
Lemma from_dict_v1_inv (d : json) (self : ExperimentV1.t) :
  ExperimentV1.from_dict d = Ok self ->
  (exists v, getitem d "slug" = Ok v /\ ExperimentV1.slug self = str v)
  /\ (exists v, getitem d "status" = Ok v /\ ExperimentV1.status self = str v)
  /\ (exists v, getitem d "start_date" = Ok v
                /\ ExperimentV1.structure_datetime v = Ok (ExperimentV1.start_date self))
  /\ (exists v, getitem d "end_date" = Ok v
                /\ ExperimentV1.structure_datetime v = Ok (ExperimentV1.end_date self))
  /\ (exists v, getitem d "variants" = Ok v
                /\ structure_list Variant.structure v = Ok (ExperimentV1.variants self)).
Proof.
  unfold ExperimentV1.from_dict. intros H. peel H. injection H as <-. simpl.
  destruct (field_required _ _ _ _ _ Hg Hg8) as (v1 & ? & Hs1).
  destruct (field_required _ _ _ _ _ Hg1 Hg10) as (v3 & ? & Hs3).
  destruct (field_required _ _ _ _ _ Hg2 Hg11) as (v4 & ? & Hs4).
  destruct (field_required _ _ _ _ _ Hg3 Hg12) as (v5 & ? & Hs5).
  destruct (field_required _ _ _ _ _ Hg5 Hg14) as (v7 & ? & Hs7).
  unfold structure_str in Hs1, Hs3. injection Hs1 as <-. injection Hs3 as <-.
  repeat split; eauto.
Qed.

(** What the V6 decoder read for each attribute. *)
Lemma from_dict_v6_inv (d : json) (self : ExperimentV6.t) :
  ExperimentV6.from_dict d = Ok self ->
  (exists v, getitem d "slug" = Ok v /\ ExperimentV6.slug self = str v)
  /\ (exists v, getitem d "branches" = Ok v
                /\ structure_list Branch.structure v = Ok (ExperimentV6.branches self))
  /\ (exists v, getitem d "startDate" = Ok v
                /\ structure_optional ExperimentV6.datetime_hook v
                   = Ok (ExperimentV6.startDate self))
  /\ (exists v, getitem d "endDate" = Ok v
                /\ structure_optional ExperimentV6.datetime_hook v
                   = Ok (ExperimentV6.endDate self))
  /\ (exists v, getitem d "proposedEnrollment" = Ok v
                /\ int v = Ok (ExperimentV6.proposedEnrollment self))
  /\ (exists v, getitem d "referenceBranch" = Ok v
                /\ structure_optional structure_str v
                   = Ok (ExperimentV6.referenceBranch self))
  /\ (exists v, getitem d "probeSets" = Ok v
                /\ structure_list structure_str v = Ok (ExperimentV6.probeSets self)).
Proof.
  unfold ExperimentV6.from_dict. intros H. peel H. injection H as <-. simpl.
  destruct (field_required _ _ _ _ _ Hg Hg6) as (v1 & ? & Hs1).
  destruct (field_required _ _ _ _ _ Hg0 Hg7) as (v2 & ? & Hs2).
  destruct (field_required _ _ _ _ _ Hg1 Hg8) as (v3 & ? & Hs3).
  destruct (field_required _ _ _ _ _ Hg2 Hg9) as (v4 & ? & Hs4).
  destruct (field_required _ _ _ _ _ Hg3 Hg10) as (v5 & ? & Hs5).
  destruct (field_required _ _ _ _ _ Hg4 Hg11) as (v6 & ? & Hs6).
  destruct (field_required _ _ _ _ _ Hg5 Hg12) as (v7 & ? & Hs7).
  unfold structure_str in Hs1. injection Hs1 as <-.
  repeat split; eauto.
Qed.

End Decoders.

Section DecodedRecords.

(** X7.  A converted legacy record has one branch per variant, in the
    same order and with the same slugs and ratios, no probe set, its own
    slug as [experimenter_slug]; and its reference branch, when there is
    one, is the slug of one of its branches. *)
Theorem X7_legacy_branches (self : ExperimentV1.t) :
  let ex := ExperimentV1.to_experiment self in
  map Branch.slug (Experiment.branches ex)
    = map Variant.slug (ExperimentV1.variants self)
  /\ map Branch.ratio (Experiment.branches ex)
     = map Variant.ratio (ExperimentV1.variants self)
  /\ Experiment.probe_sets ex = []
  /\ Experiment.experimenter_slug ex = Some (ExperimentV1.slug self)
  /\ (forall s, Experiment.reference_branch ex = Some s ->
        In s (map Branch.slug (Experiment.branches ex))).
Proof.
  simpl. rewrite !map_map. simpl. repeat split.
  intros s. rewrite length_map.
  destruct (filter Variant.is_control (ExperimentV1.variants self))
    as [|v [|v' l]] eqn:Hf; simpl; try discriminate.
  intros H. injection H as <-.
  apply in_map_iff. exists v. split; [reflexivity|].
  assert (Hin : In v (filter Variant.is_control (ExperimentV1.variants self)))
    by (rewrite Hf; left; reflexivity).
  apply filter_In in Hin. apply Hin.
Qed.

Lemma structure_datetime_Some (v : json) (dt : datetime) :
  ExperimentV1.structure_datetime v = Ok (Some dt) ->
  utcoffset dt = Some 0 /\ min_us <= wall_us dt <= max_us
  /\ exists ms, wall_us dt = ms * 1000
                /\ (v = JInt ms \/ v = JBool true /\ ms = 1 \/ v = JBool false /\ ms = 0).
Proof.
  unfold ExperimentV1.structure_datetime, structure_optional,
    ExperimentV1._unix_millis_to_datetime, utc_fromtimestamp_ms.
  assert (Hms : forall ms r,
             (if (min_us <=? ms * 1000)%Z && (ms * 1000 <=? max_us)%Z
              then Ok {| wall_us := ms * 1000; utcoffset := Some 0 |}
              else Raise ValueError) = Ok r ->
             r = {| wall_us := ms * 1000; utcoffset := Some 0 |}
             /\ min_us <= ms * 1000 <= max_us).
  { intros ms r.
    destruct (Z.leb_spec min_us (ms * 1000)) as [Hlo|Hlo],
             (Z.leb_spec (ms * 1000) max_us) as [Hhi|Hhi];
      simpl; intros Heq; try discriminate.
    injection Heq as <-. split; [reflexivity | lia]. }
  destruct v as [|b|n|s|items|fields]; simpl; try discriminate.
  - destruct b; simpl.
    + destruct (if (min_us <=? 1 * 1000)%Z && (1 * 1000 <=? max_us)%Z
                then Ok {| wall_us := 1 * 1000; utcoffset := Some 0 |}
                else Raise ValueError) as [r|e] eqn:Hr; simpl; [|discriminate].
      intros H. injection H as <-. destruct (Hms 1 r Hr) as [-> Hrange].
      simpl. repeat split; try lia. exists 1. split; auto.
    + destruct (if (min_us <=? 0 * 1000)%Z && (0 * 1000 <=? max_us)%Z
                then Ok {| wall_us := 0 * 1000; utcoffset := Some 0 |}
                else Raise ValueError) as [r|e] eqn:Hr; simpl; [|discriminate].
      intros H. injection H as <-. destruct (Hms 0 r Hr) as [-> Hrange].
      simpl. repeat split; try lia. exists 0. split; auto.
  - destruct (if (min_us <=? n * 1000)%Z && (n * 1000 <=? max_us)%Z
              then Ok {| wall_us := n * 1000; utcoffset := Some 0 |}
              else Raise ValueError) as [r|e] eqn:Hr; simpl; [|discriminate].
    intros H. injection H as <-. destruct (Hms n r Hr) as [-> Hrange].
    simpl. repeat split; try lia. exists n. split; auto.
Qed.

(** X8.  The dates of a decoded legacy record are aware, in UTC, and lie
    in the years 1 to 9999; so, for a bound that carries an offset, the
    date filters never raise on the conversion of a legacy record. *)
Theorem X8_legacy_dates (d : json) (self : ExperimentV1.t)
    (Hdecoded : ExperimentV1.from_dict d = Ok self) :
  let ex := ExperimentV1.to_experiment self in
  (forall dt,
      Experiment.start_date ex = Some dt \/ Experiment.end_date ex = Some dt ->
      utcoffset dt = Some 0 /\ min_us <= wall_us dt <= max_us)
  /\ (forall bound,
         aware bound = true ->
         is_ok (ExperimentCollection.started_cond bound ex) = true
         /\ is_ok (ExperimentCollection.ending_cond bound ex) = true).
Proof.
  destruct (from_dict_v1_inv d self Hdecoded)
    as (_ & _ & (vs & _ & Hs) & (ve & _ & He) & _).
  assert (Hdates : forall dt,
             ExperimentV1.start_date self = Some dt
             \/ ExperimentV1.end_date self = Some dt ->
             utcoffset dt = Some 0 /\ min_us <= wall_us dt <= max_us).
  { intros dt [H|H]; rewrite H in *.
    - destruct (structure_datetime_Some vs dt Hs) as (? & ? & _). auto.
    - destruct (structure_datetime_Some ve dt He) as (? & ? & _). auto. }
  simpl. split; [exact Hdates|].
  intros bound Hb.
  unfold ExperimentCollection.started_cond, ExperimentCollection.ending_cond. simpl.
  split.
  - destruct (ExperimentV1.start_date self) as [dt|] eqn:Hd; [|reflexivity].
    rewrite ge_is_ok, Hb. unfold aware.
    destruct (Hdates dt (or_introl eq_refl)) as [-> _]. reflexivity.
  - destruct (ExperimentV1.end_date self) as [dt|] eqn:Hd; [|reflexivity].
    rewrite ge_is_ok, Hb. unfold aware.
    destruct (Hdates dt (or_intror eq_refl)) as [-> _]. reflexivity.
Qed.

(** X10.  A V6 record whose end date carries no offset cannot be
    converted: the comparison with the localized clock reading raises
    [TypeError], after the clock was read. *)
Theorem X10_naive_end_date (E : env) (self : ExperimentV6.t) (w : world)
    (d : datetime)
    (Hend : ExperimentV6.endDate self = Some d)
    (Hnaive : aware d = false) :
  ExperimentV6.to_experiment E self w = (Raise TypeError, snd (read_clock E w)).
Proof.
  unfold ExperimentV6.to_experiment, ExperimentV6.status_of. rewrite Hend.
  unfold aware in Hnaive. destruct (utcoffset d) eqn:Hoff; [discriminate|].
  unfold bind, read_clock, lift, utc_localize, now, ge. simpl.
  rewrite Hoff. reflexivity.
Qed.

Lemma drop_all (n : nat) (s : string) :
  (String.length s <= n)%nat -> drop n s = "".
Proof.
  revert s. induction n as [|n IH]; intros s Hs.
  - destruct s; [reflexivity | simpl in Hs; lia].
  - destruct s as [|c r]; [reflexivity|]. simpl. apply IH. simpl in Hs. lia.
Qed.

Lemma replace_char_absent (old : ascii) (new s : string) :
  has_char old s = false -> replace_char old new s = s.
Proof.
  unfold has_char. induction s as [|c r IH]; simpl; [reflexivity|].
  rewrite Ascii.eqb_sym. destruct (Ascii.eqb c old); simpl; [discriminate|].
  intros H. rewrite IH by exact H. reflexivity.
Qed.

Lemma make_datetime_tz (y mo d h mi s us : Z) (tz : option Z) (r : datetime) :
  make_datetime y mo d h mi s us tz = Ok r -> utcoffset r = tz.
Proof.
  unfold make_datetime.
  match goal with |- (if ?c then _ else _) = _ -> _ => destruct c end;
    intros H; [injection H as <-; reflexivity | discriminate].
Qed.

(** X11.  The V6 timestamp hook gives a naive value for a date without
    time: ten characters, none of them [Z]. *)
Theorem X11_date_only_is_naive (s : string) (d : datetime)
    (Hlen : String.length s = 10%nat)
    (HnoZ : has_char "Z"%char s = false)
    (Hhook : ExperimentV6.datetime_hook (JStr s) = Ok d) :
  aware d = false /\ instant d = None.
Proof.
  unfold ExperimentV6.datetime_hook in Hhook.
  rewrite (replace_char_absent _ _ _ HnoZ) in Hhook.
  unfold fromisoformat in Hhook. rewrite Hlen in Hhook. simpl Nat.leb in Hhook.
  destruct (_parse_isoformat_date (take 10 s)) as [[[y mo] dd]|]; [|discriminate].
  apply make_datetime_tz in Hhook. unfold aware, instant. rewrite Hhook.
  split; reflexivity.
Qed.

(** X12.  Neither decoder accepts a value that is not a JSON object:
    both raise [TypeError] on it. *)
Theorem X12_not_an_object (d : json) :
  (exists fields, d = JObj fields)
  \/ (ExperimentV1.from_dict d = Raise TypeError
      /\ ExperimentV6.from_dict d = Raise TypeError).
Proof.
  destruct d; try (right; split; reflexivity).
  left. eauto.
Qed.

(** X13.  A record decodes only if it carries every attribute that has no
    default: seven keys for a legacy record, seven for a V6 record, whose
    [proposedEnrollment] moreover must not be null. *)
Theorem X13_required_keys (d : json) :
  (forall self, ExperimentV1.from_dict d = Ok self ->
     Forall (fun k => has_key k d) v1_required)
  /\ (forall self, ExperimentV6.from_dict d = Ok self ->
        Forall (fun k => has_key k d) v6_required
        /\ getitem d "proposedEnrollment" <> Ok JNull).
Proof.
  split.
  - intros self H.
    destruct (from_dict_v1_fields d self H) as ((? & ? & _) & (? & ? & ? & _) & _).
    destruct (from_dict_v1_inv d self H)
      as ((? & ? & _) & (? & ? & _) & (? & ? & _) & (? & ? & _) & (? & ? & _)).
    unfold v1_required. repeat constructor; eapply getitem_has_key; eassumption.
  - intros self H.
    destruct (from_dict_v6_inv d self H)
      as ((? & ? & _) & (? & ? & _) & (? & ? & _) & (? & ? & _)
          & (v & Hv & Hint) & (? & ? & _) & (? & ? & _)).
    split.
    + unfold v6_required. repeat constructor; eapply getitem_has_key; eassumption.
    + intros Hnull. rewrite Hnull in Hv. injection Hv as <-. discriminate.
Qed.

End DecodedRecords.

(* ================================================================== *)
(** ** Whole runs of [from_experimenter] *)

Section Runs2.

Import ExperimentCollection.

Lemma legacy_results_cons (d : json) (rest : list json) :
  legacy_results (d :: rest)
  = ((match getitem d "type" with
      | Ok ty =>
          if eq_str ty "rapid" then []
          else match ExperimentV1.from_dict d with
               | Ok v1 => [ExperimentV1.to_experiment v1]
               | Raise _ => []
               end
      | Raise _ => []
      end) ++ legacy_results rest)%list.
Proof. reflexivity. Qed.

Lemma legacy_failures_cons (d : json) (rest : list json) :
  legacy_failures (d :: rest)
  = ((if not_rapid d then
        match ExperimentV1.from_dict d, getitem d "slug" with
        | Raise e, Ok slug => [LogException e slug]
        | _, _ => []
        end
      else []) ++ legacy_failures rest)%list.
Proof. reflexivity. Qed.

Lemma legacy_loop_run (items : list json) :
  Forall (fun d => has_key "type" d /\ has_key "slug" d) items ->
  forall (acc : list Experiment.t) (w : world),
    legacy_loop items acc w
    = (Ok (acc ++ legacy_results items)%list, after_legacy items w).
Proof.
  induction 1 as [|d rest [Hty Hslug] _ IH]; intros acc w.
  - simpl. unfold ret. f_equal; [rewrite app_nil_r; reflexivity|].
    apply world_eq; simpl; rewrite ?app_nil_r; reflexivity.
  - rewrite legacy_loop_cons, legacy_results_cons.
    destruct (has_key_getitem _ _ Hty) as (ty & Hgt).
    destruct (has_key_getitem _ _ Hslug) as (slug & Hgs).
    rewrite Hgt.
    assert (Hnr : not_rapid d = negb (eq_str ty "rapid"))
      by (unfold not_rapid; rewrite Hgt; reflexivity).
    destruct (eq_str ty "rapid") eqn:Hrapid.
    + rewrite IH. f_equal.
      apply world_eq; simpl; rewrite ?legacy_failures_cons, ?Hnr; reflexivity.
    + destruct (ExperimentV1.from_dict d) as [v1|e] eqn:Hdec.
      * rewrite IH, <- app_assoc. f_equal.
        apply world_eq; simpl;
          rewrite ?legacy_failures_cons, ?Hnr, ?Hdec, <- ?app_assoc; reflexivity.
      * unfold on_failure. rewrite Hgs, IH. f_equal.
        apply world_eq; simpl;
          rewrite ?legacy_failures_cons, ?Hnr, ?Hdec, ?Hgs, <- ?app_assoc; reflexivity.
Qed.

(** X14.  When every record of a legacy batch carries its type and its
    slug, the legacy loop goes through the whole batch: it returns the
    conversions of the records that are not of type ["rapid"] and decode,
    writes one log record, holding the slug, for each of the others that
    are not of type ["rapid"], and makes no request, no pause and no
    clock reading.  Every record that is not of type ["rapid"] is thus
    either converted or logged. *)
Theorem X14_legacy_batch (items : list json) (acc : list Experiment.t) (w : world)
    (Hkeys : Forall (fun d => has_key "type" d /\ has_key "slug" d) items) :
  legacy_loop items acc w
    = (Ok (acc ++ legacy_results items)%list, after_legacy items w)
  /\ (List.length (legacy_results items) + List.length (legacy_failures items)
      = List.length (filter not_rapid items))%nat.
Proof.
  split; [apply legacy_loop_run; exact Hkeys|].
  induction Hkeys as [|d rest [Hty Hslug] _ IH]; [reflexivity|].
  destruct (has_key_getitem _ _ Hty) as (ty & Hgt).
  destruct (has_key_getitem _ _ Hslug) as (slug & Hgs).
  assert (Hnr : not_rapid d = negb (eq_str ty "rapid"))
    by (unfold not_rapid; rewrite Hgt; reflexivity).
  rewrite legacy_results_cons, legacy_failures_cons, !length_app.
  cbn [filter]. rewrite Hnr, Hgt, Hgs.
  destruct (eq_str ty "rapid"); cbn [negb List.length Nat.add]; [exact IH|].
  destruct (ExperimentV1.from_dict d); cbn [List.length]; lia.
Qed.

(** The loops make no request and no pause. *)
Lemma legacy_loop_frame (items : list json) :
  forall (acc : list Experiment.t) (w : world),
    requests (snd (legacy_loop items acc w)) = requests w
    /\ slept (snd (legacy_loop items acc w)) = slept w.
Proof.
  induction items as [|d rest IH]; intros acc w; [split; reflexivity|].
  rewrite legacy_loop_cons.
  destruct (getitem d "type") as [ty|e]; [|split; reflexivity].
  destruct (eq_str ty "rapid"); [apply IH|].
  destruct (ExperimentV1.from_dict d) as [v1|e].
  - destruct (IH (acc ++ [ExperimentV1.to_experiment v1])%list
                 (noted "ExperimentV1" d w)) as [-> ->].
    split; reflexivity.
  - unfold on_failure. destruct (getitem d "slug") as [slug|e']; [|split; reflexivity].
    destruct (IH acc (logged (LogException e slug) (noted "ExperimentV1" d w)))
      as [-> ->].
    split; reflexivity.
Qed.

Lemma nimbus_loop_frame (E : env) (items : list json) :
  forall (acc : list Experiment.t) (w : world),
    requests (snd (nimbus_loop E items acc w)) = requests w
    /\ slept (snd (nimbus_loop E items acc w)) = slept w.
Proof.
  induction items as [|d rest IH]; intros acc w; [split; reflexivity|].
  rewrite nimbus_loop_cons.
  destruct (ExperimentV6.from_dict d) as [v6|e].
  - pose proof (to_experiment_effects E v6 (noted "ExperimentV6" d w)) as Heff.
    simpl in Heff. destruct Heff as (_ & _ & Hreq & Hsl & _).
    destruct (ExperimentV6.to_experiment E v6 (noted "ExperimentV6" d w))
      as [[ex|e] w1]; simpl in Hreq, Hsl.
    + destruct (IH (acc ++ [ex])%list w1) as [-> ->]. split; assumption.
    + unfold on_failure. destruct (getitem d "slug") as [slug|e']; [|split; assumption].
      destruct (IH acc (logged (LogException e slug) w1)) as [-> ->].
      split; assumption.
  - unfold on_failure. destruct (getitem d "slug") as [slug|e']; [|split; reflexivity].
    destruct (IH acc (logged (LogException e slug) (noted "ExperimentV6" d w)))
      as [-> ->].
    split; reflexivity.
Qed.

Lemma failed_requests_app (E : env) (l1 l2 : list string) :
  forall base,
    failed_requests E base (l1 ++ l2)%list
    = (failed_requests E base l1
       + failed_requests E (base + List.length l1) l2)%nat.
Proof.
  induction l1 as [|u l1 IH]; intros base; simpl.
  - rewrite Nat.add_0_r. reflexivity.
  - rewrite IH. replace (S base + List.length l1)%nat
      with (base + S (List.length l1))%nat by lia. lia.
Qed.

Lemma failed_requests_le (E : env) (urls : list string) :
  forall base, (failed_requests E base urls <= List.length urls)%nat.
Proof.
  induction urls as [|u l IH]; intros base; simpl; [lia|].
  specialize (IH (S base)).
  destruct (is_ok (rbind (http_get E u base) json_body)); lia.
Qed.

(** [k] failed requests for [url] in a row count as [k]. *)
Lemma failed_requests_run (E : env) (url : string) (k : nat) :
  forall (base m : nat),
    (forall j, (j < k)%nat ->
       is_ok (rbind (http_get E url (base + j)) json_body) = false) ->
    failed_requests E base (repeat url (k + m))
    = (k + failed_requests E (base + k) (repeat url m))%nat.
Proof.
  induction k as [|k IH]; intros base m Hfail; simpl.
  - rewrite Nat.add_0_r. reflexivity.
  - pose proof (Hfail O ltac:(lia)) as H0. rewrite Nat.add_0_r in H0. rewrite H0.
    rewrite IH.
    + replace (S base + k)%nat with (base + S k)%nat by lia. reflexivity.
    + intros j Hj. replace (S base + j)%nat with (base + S j)%nat by lia.
      apply Hfail. lia.
Qed.

(** How the loop of [_retry_get] ends, with what each attempt did. *)
Lemma retry_loop_outcome (E : env) (url : string) (n : nat) :
  forall w : world,
    (exists k blob,
        (k < n)%nat
        /\ (forall j, (j < k)%nat -> is_ok (attempt E url w j) = false)
        /\ attempt E url w k = Ok blob
        /\ retry_loop E n url w = (Ok blob, after_attempts url (S k) k w))
    \/ ((forall j, (j < n)%nat -> is_ok (attempt E url w j) = false)
        /\ retry_loop E n url w
           = (Raise (Exception ("Too many retries for " ++ url)),
              after_attempts url n n w)).
Proof.
  induction n as [|n IH]; intros w.
  - right. split; [intros j Hj; lia|].
    apply retry_loop_exhausted. intros j Hj. lia.
  - destruct (attempt E url w 0) as [blob|e] eqn:H0.
    + left. exists O, blob. split; [lia|]. split; [intros j Hj; lia|].
      split; [exact H0|]. apply retry_loop_succeeded. exact H0.
    + assert (Hf0 : is_ok (attempt E url w 0) = false) by (rewrite H0; reflexivity).
      rewrite (retry_loop_failed E url n w Hf0).
      destruct (IH (after_attempts url 1 1 w))
        as [(k & blob & Hk & Hfail & Hok & Hr) | (Hfail & Hr)];
        rewrite Hr, after_attempts_step.
      * left. exists (S k), blob. split; [lia|]. split; [|split].
        -- intros j Hj. destruct j as [|j]; [exact Hf0|].
           rewrite <- attempt_shift. apply Hfail. lia.
        -- rewrite <- attempt_shift. exact Hok.
        -- reflexivity.
      * right. split; [|reflexivity].
        intros j Hj. destruct j as [|j]; [exact Hf0|].
        rewrite <- attempt_shift. apply Hfail. lia.
Qed.

(** The traffic of one call of [_retry_get]: between one and three
    requests for the URL, and one second of sleep for each of them that
    failed. *)
Lemma retry_get_traffic (E : env) (url : string) (w : world) :
  exists n : nat,
    (1 <= n <= 3)%nat
    /\ requests (snd (_retry_get E url w)) = (requests w ++ repeat url n)%list
    /\ slept (snd (_retry_get E url w))
       = slept w
         + Z.of_nat (failed_requests E (List.length (requests w)) (repeat url n)).
Proof.
  unfold _retry_get, MAX_RETRIES.
  destruct (retry_loop_outcome E url 3 w)
    as [(k & blob & Hk & Hfail & Hok & Hr) | (Hfail & Hr)]; rewrite Hr.
  - exists (S k). split; [lia|]. split; [reflexivity|].
    cbn [snd after_attempts slept]. do 2 f_equal.
    replace (S k) with (k + 1)%nat by lia.
    rewrite (failed_requests_run E url k (List.length (requests w)) 1 Hfail).
    simpl. unfold attempt in Hok. rewrite Hok. simpl. lia.
  - exists 3%nat. split; [lia|]. split; [reflexivity|].
    cbn [snd after_attempts slept]. do 2 f_equal.
    change 3%nat with (3 + 0)%nat at 2.
    rewrite (failed_requests_run E url 3 (List.length (requests w)) 0 Hfail).
    simpl. reflexivity.
Qed.

(** X15.  Whatever the servers answer, one call of [from_experimenter]
    makes between one and three requests to the legacy endpoint, then at
    most three to the V6 endpoint, and nothing else; the time it sleeps is
    one second for each of these requests that failed, and for no other
    reason, hence at most six seconds. *)
Theorem X15_traffic (E : env) (w : world) :
  exists a b : nat,
    (1 <= a <= 3)%nat /\ (b <= 3)%nat
    /\ requests (snd (from_experimenter E w))
       = (requests w ++ repeat EXPERIMENTER_API_URL_V1 a
                     ++ repeat EXPERIMENTER_API_URL_V6 b)%list
    /\ slept (snd (from_experimenter E w))
       = slept w
         + Z.of_nat (failed_requests E (List.length (requests w))
                       (repeat EXPERIMENTER_API_URL_V1 a
                        ++ repeat EXPERIMENTER_API_URL_V6 b)%list)
    /\ slept (snd (from_experimenter E w)) <= slept w + 6.
Proof.
  destruct (from_experimenter E w) as [r w'] eqn:Hrun. cbn [snd].
  unfold from_experimenter in Hrun.
  destruct (retry_get_traffic E EXPERIMENTER_API_URL_V1 w) as (a & Ha & Hr1 & Hs1).
  assert (Hfinish : forall (b : nat) (wf : world),
             (b <= 3)%nat ->
             requests wf
             = (requests w ++ repeat EXPERIMENTER_API_URL_V1 a
                           ++ repeat EXPERIMENTER_API_URL_V6 b)%list ->
             slept wf
             = slept w
               + Z.of_nat (failed_requests E (List.length (requests w))
                             (repeat EXPERIMENTER_API_URL_V1 a
                              ++ repeat EXPERIMENTER_API_URL_V6 b)%list) ->
             exists a b : nat,
               (1 <= a <= 3)%nat /\ (b <= 3)%nat
               /\ requests wf
                  = (requests w ++ repeat EXPERIMENTER_API_URL_V1 a
                                ++ repeat EXPERIMENTER_API_URL_V6 b)%list
               /\ slept wf
                  = slept w
                    + Z.of_nat (failed_requests E (List.length (requests w))
                                  (repeat EXPERIMENTER_API_URL_V1 a
                                   ++ repeat EXPERIMENTER_API_URL_V6 b)%list)
               /\ slept wf <= slept w + 6).
  { intros b wf Hb Hr Hs. exists a, b. repeat split; try lia; try assumption.
    rewrite Hs.
    pose proof (failed_requests_le E
                  (repeat EXPERIMENTER_API_URL_V1 a
                   ++ repeat EXPERIMENTER_API_URL_V6 b)%list
                  (List.length (requests w))) as Hle.
    rewrite length_app, !repeat_length in Hle. lia. }
  assert (Hstop1 : forall w1 : world,
             requests w1 = (requests w ++ repeat EXPERIMENTER_API_URL_V1 a)%list ->
             slept w1
             = slept w
               + Z.of_nat (failed_requests E (List.length (requests w))
                             (repeat EXPERIMENTER_API_URL_V1 a)) ->
             exists a b : nat,
               (1 <= a <= 3)%nat /\ (b <= 3)%nat
               /\ requests w1
                  = (requests w ++ repeat EXPERIMENTER_API_URL_V1 a
                                ++ repeat EXPERIMENTER_API_URL_V6 b)%list
               /\ slept w1
                  = slept w
                    + Z.of_nat (failed_requests E (List.length (requests w))
                                  (repeat EXPERIMENTER_API_URL_V1 a
                                   ++ repeat EXPERIMENTER_API_URL_V6 b)%list)
               /\ slept w1 <= slept w + 6).
  { intros w1 Hr Hs. apply (Hfinish O w1); [lia| |]; simpl; rewrite app_nil_r;
      assumption. }
  unfold bind at 1 in Hrun.
  destruct (_retry_get E EXPERIMENTER_API_URL_V1 w) as [[j1|e] w1];
    cbn [snd] in Hr1, Hs1;
    [|injection Hrun as <- <-; apply Hstop1; assumption].
  unfold bind at 1, lift at 1 in Hrun.
  destruct (iter j1) as [items1|e];
    [|injection Hrun as <- <-; apply Hstop1; assumption].
  unfold bind at 1 in Hrun.
  destruct (legacy_loop_frame items1 [] w1) as [Hr2 Hs2].
  destruct (legacy_loop items1 [] w1) as [[legacy|e] w2]; cbn [snd] in Hr2, Hs2;
    [|injection Hrun as <- <-; apply Hstop1; congruence].
  destruct (retry_get_traffic E EXPERIMENTER_API_URL_V6 w2) as (b & Hb & Hr3 & Hs3).
  assert (Hstop2 : forall w3 : world,
             requests w3 = requests (snd (_retry_get E EXPERIMENTER_API_URL_V6 w2)) ->
             slept w3 = slept (snd (_retry_get E EXPERIMENTER_API_URL_V6 w2)) ->
             exists a b : nat,
               (1 <= a <= 3)%nat /\ (b <= 3)%nat
               /\ requests w3
                  = (requests w ++ repeat EXPERIMENTER_API_URL_V1 a
                                ++ repeat EXPERIMENTER_API_URL_V6 b)%list
               /\ slept w3
                  = slept w
                    + Z.of_nat (failed_requests E (List.length (requests w))
                                  (repeat EXPERIMENTER_API_URL_V1 a
                                   ++ repeat EXPERIMENTER_API_URL_V6 b)%list)
               /\ slept w3 <= slept w + 6).
  { intros w3 Hr Hs. apply (Hfinish b w3); [lia| |].
    - rewrite Hr, Hr3, Hr2, Hr1, <- app_assoc. reflexivity.
    - rewrite Hs, Hs3, Hs2, Hs1, Hr2, Hr1, failed_requests_app.
      rewrite length_app, !repeat_length. lia. }
  unfold bind at 1 in Hrun.
  destruct (_retry_get E EXPERIMENTER_API_URL_V6 w2) as [[j2|e] w3];
    cbn [snd] in Hstop2;
    [|injection Hrun as <- <-; apply Hstop2; reflexivity].
  unfold bind at 1, lift at 1 in Hrun.
  destruct (iter j2) as [items2|e];
    [|injection Hrun as <- <-; apply Hstop2; reflexivity].
  unfold bind at 1 in Hrun.
  destruct (nimbus_loop_frame E items2 [] w3) as [Hr4 Hs4].
  destruct (nimbus_loop E items2 [] w3) as [[nimbus|e] w4]; cbn [snd] in Hr4, Hs4;
    [unfold ret in Hrun|]; injection Hrun as <- <-; apply Hstop2; assumption.
Qed.

(** X16.  When the three requests to the legacy endpoint fail,
    [from_experimenter] raises the exception of [_retry_get] for that
    endpoint: the V6 endpoint is never requested and no record is
    decoded. *)
Theorem X16_legacy_endpoint_down (E : env) (w : world)
    (Hdown : forall j, (j < 3)%nat ->
               is_ok (attempt E EXPERIMENTER_API_URL_V1 w j) = false) :
  from_experimenter E w
  = (Raise (Exception ("Too many retries for " ++ EXPERIMENTER_API_URL_V1)),
     after_attempts EXPERIMENTER_API_URL_V1 3 3 w).
Proof.
  unfold from_experimenter, bind at 1, _retry_get, MAX_RETRIES.
  rewrite (retry_loop_exhausted E EXPERIMENTER_API_URL_V1 3 w Hdown). reflexivity.
Qed.

(** X17.  When the legacy endpoint answers at once with a well-keyed
    batch and the three requests to the V6 endpoint fail, the whole call
    raises the exception of [_retry_get] for the V6 endpoint: the legacy
    experiments already converted are not returned. *)
Theorem X17_nimbus_endpoint_down (E : env) (w : world) (items : list json)
    (Hlegacy : attempt E EXPERIMENTER_API_URL_V1 w 0 = Ok (JArr items))
    (Hkeys : Forall (fun d => has_key "type" d /\ has_key "slug" d) items)
    (Hdown : forall j, (j < 3)%nat ->
               is_ok (attempt E EXPERIMENTER_API_URL_V6 w (S j)) = false) :
  from_experimenter E w
  = (Raise (Exception ("Too many retries for " ++ EXPERIMENTER_API_URL_V6)),
     after_attempts EXPERIMENTER_API_URL_V6 3 3
       (after_legacy items (after_attempts EXPERIMENTER_API_URL_V1 1 0 w))).
Proof.
  unfold from_experimenter, bind at 1, _retry_get, MAX_RETRIES.
  rewrite (retry_loop_succeeded E EXPERIMENTER_API_URL_V1 2 w (JArr items) Hlegacy).
  unfold bind at 1, lift at 1. simpl iter. cbv iota beta.
  unfold bind at 1. rewrite (legacy_loop_run items Hkeys).
  unfold bind at 1.
  rewrite (retry_loop_exhausted E EXPERIMENTER_API_URL_V6 3); [reflexivity|].
  intros j Hj. rewrite <- (Hdown j Hj). unfold attempt. simpl.
  rewrite length_app. simpl.
  replace (List.length (requests w) + 1 + j)%nat
    with (List.length (requests w) + S j)%nat by lia.
  reflexivity.
Qed.

(** X18.  When the legacy endpoint answers with JSON that is not a list
    (a number, a boolean, null, a non-empty string or a non-empty object,
    such as an error document), [from_experimenter] raises [TypeError]
    right after that one request: nothing is decoded and the V6 endpoint
    is not requested. *)
Theorem X18_not_a_batch (E : env) (w : world) (blob : json)
    (Hanswer : attempt E EXPERIMENTER_API_URL_V1 w 0 = Ok blob)
    (Hblob : yields_records blob = false) :
  from_experimenter E w
  = (Raise TypeError, after_attempts EXPERIMENTER_API_URL_V1 1 0 w).
Proof.
  unfold from_experimenter, bind at 1, _retry_get, MAX_RETRIES.
  rewrite (retry_loop_succeeded E EXPERIMENTER_API_URL_V1 2 w blob Hanswer).
  unfold bind at 1, lift at 1.
  destruct blob as [|b|n|s|items|fields]; simpl in Hblob; try discriminate;
    try reflexivity.
  - destruct s as [|c r]; [discriminate|]. simpl iter. cbv iota beta.
    unfold bind at 1. simpl map. rewrite legacy_loop_cons. reflexivity.
  - destruct fields as [|[k v] rest]; [discriminate|]. simpl iter. cbv iota beta.
    unfold bind at 1. simpl map. rewrite legacy_loop_cons. reflexivity.
Qed.

End Runs2.

(* ================================================================== *)
(** ** The shape of the collection that is built *)

Section Layout.

Import ExperimentCollection.

Lemma to_experiment_shape (E : env) (self : ExperimentV6.t) (w : world)
    (ex : Experiment.t) :
  fst (ExperimentV6.to_experiment E self w) = Ok ex -> nimbus_shape ex.
Proof.
  unfold ExperimentV6.to_experiment, ExperimentV6.status_of, bind, read_clock,
    lift, utc_localize, now, ge, ret, nimbus_shape.
  destruct (ExperimentV6.endDate self) as [d|]; simpl.
  - destruct (utcoffset d) as [off|]; simpl; [|discriminate].
    intros H. injection H as <-. simpl.
    repeat split; try discriminate.
    destruct (_ <=? _)%Z; auto.
  - intros H. injection H as <-. simpl. repeat split; try discriminate. auto.
Qed.

Lemma legacy_loop_shape (items : list json) :
  forall (acc res : list Experiment.t) (w w' : world),
    legacy_loop items acc w = (Ok res, w') ->
    exists new, res = (acc ++ new)%list /\ Forall legacy_shape new.
Proof.
  induction items as [|d rest IH]; intros acc res w w' Hrun.
  - simpl in Hrun. injection Hrun as <- _. exists []. rewrite app_nil_r. auto.
  - rewrite legacy_loop_cons in Hrun.
    destruct (getitem d "type") as [ty|e] eqn:Hty; [|discriminate].
    destruct (eq_str ty "rapid") eqn:Hne; [eapply IH; eassumption|].
    destruct (ExperimentV1.from_dict d) as [v1|e] eqn:Hdec.
    + destruct (IH _ _ _ _ Hrun) as (new & -> & Hnew).
      exists (ExperimentV1.to_experiment v1 :: new).
      rewrite <- app_assoc. split; [reflexivity|].
      constructor; [|exact Hnew].
      destruct (from_dict_v1_fields d v1 Hdec)
        as ((ty' & Hty' & Htype) & (v & o & _ & _ & Hpe) & _).
      unfold legacy_shape. simpl. rewrite Hpe.
      repeat split; try discriminate.
      rewrite Hty in Hty'. injection Hty' as <-. rewrite Htype.
      intros Hrapid. apply str_rapid in Hrapid. congruence.
    + unfold on_failure in Hrun.
      destruct (getitem d "slug"); [eapply IH; eassumption | discriminate].
Qed.

Lemma nimbus_loop_shape (E : env) (items : list json) :
  forall (acc res : list Experiment.t) (w w' : world),
    nimbus_loop E items acc w = (Ok res, w') ->
    exists new, res = (acc ++ new)%list /\ Forall nimbus_shape new.
Proof.
  induction items as [|d rest IH]; intros acc res w w' Hrun.
  - simpl in Hrun. injection Hrun as <- _. exists []. rewrite app_nil_r. auto.
  - rewrite nimbus_loop_cons in Hrun.
    destruct (ExperimentV6.from_dict d) as [v6|e].
    + pose proof (to_experiment_shape E v6 (noted "ExperimentV6" d w)) as Hshape.
      destruct (ExperimentV6.to_experiment E v6 (noted "ExperimentV6" d w))
        as [[ex|e] w1]; simpl in Hshape.
      * destruct (IH _ _ _ _ Hrun) as (new & -> & Hnew).
        exists (ex :: new). rewrite <- app_assoc. split; [reflexivity|].
        constructor; auto.
      * unfold on_failure in Hrun.
        destruct (getitem d "slug"); [eapply IH; eassumption | discriminate].
    + unfold on_failure in Hrun.
      destruct (getitem d "slug"); [eapply IH; eassumption | discriminate].
Qed.

Lemma nimbus_shape_launched (l : list Experiment.t) :
  Forall nimbus_shape l -> ever_launched l = l.
Proof.
  induction 1 as [|ex l (_ & _ & _ & _ & Hst) _ IH]; [reflexivity|].
  unfold ever_launched in *. simpl. rewrite IH.
  destruct Hst as [-> | ->]; reflexivity.
Qed.

(** X19.  A collection returned by [from_experimenter] is made of the
    experiments converted from V6 records, followed by those converted
    from legacy records.  The former have type ["v6"], no
    [experimenter_slug], a [normandy_slug], a status that is ["Live"] or
    ["Complete"] and are not high population, so [ever_launched] keeps
    them all; the latter have an [experimenter_slug], a status, a
    proposed enrollment, no probe set and a type other than ["rapid"]. *)
Theorem X19_collection_layout (E : env) (w w' : world)
    (coll : ExperimentCollection.t)
    (Hrun : from_experimenter E w = (Ok coll, w')) :
  exists nimbus legacy,
    coll = (nimbus ++ legacy)%list
    /\ Forall nimbus_shape nimbus
    /\ Forall legacy_shape legacy
    /\ ever_launched nimbus = nimbus
    /\ of_type nimbus (OneType "v6") = nimbus.
Proof.
  unfold from_experimenter in Hrun. unfold bind at 1 in Hrun.
  destruct (_retry_get E EXPERIMENTER_API_URL_V1 w) as [[j1|e] w1]; [|discriminate].
  unfold bind at 1, lift at 1 in Hrun.
  destruct (iter j1) as [items1|e]; [|discriminate].
  unfold bind at 1 in Hrun.
  destruct (legacy_loop items1 [] w1) as [[legacy|e] w2] eqn:H2; [|discriminate].
  unfold bind at 1 in Hrun.
  destruct (_retry_get E EXPERIMENTER_API_URL_V6 w2) as [[j2|e] w3]; [|discriminate].
  unfold bind at 1, lift at 1 in Hrun.
  destruct (iter j2) as [items2|e]; [|discriminate].
  unfold bind at 1 in Hrun.
  destruct (nimbus_loop E items2 [] w3) as [[nimbus|e] w4] eqn:H4; [|discriminate].
  unfold ret in Hrun. injection Hrun as <- <-.
  destruct (legacy_loop_shape _ _ _ _ _ H2) as (l & -> & Hl).
  destruct (nimbus_loop_shape _ _ _ _ _ _ H4) as (n & -> & Hn).
  exists n, l. simpl. repeat split; auto.
  - apply nimbus_shape_launched. exact Hn.
  - unfold of_type. clear H4. induction Hn as [|ex n' (Hty & _) _ IH]; [reflexivity|].
    cbn [filter].
    assert (Hp : existsb (String.eqb (Experiment.type ex)) ["v6"] = true)
      by (rewrite Hty; reflexivity).
    rewrite Hp, IH. reflexivity.
Qed.

(** X20.  On a machine whose local time zone is UTC, a V6 record converts
    to status ["Live"] when it has no end date, and otherwise to ["Live"]
    or ["Complete"] according to whether its end date is at or after, or
    before, the current UTC time. *)
Theorem X20_status_on_utc_machine (E : env) (self : ExperimentV6.t) (w : world)
    (Hutc : local_utcoffset (clock_at E (clock_reads w)) = 0) :
  (ExperimentV6.endDate self = None ->
   exists ex, fst (ExperimentV6.to_experiment E self w) = Ok ex
              /\ Experiment.status ex = Some "Live")
  /\ (forall d i,
         ExperimentV6.endDate self = Some d -> instant d = Some i ->
         exists ex,
           fst (ExperimentV6.to_experiment E self w) = Ok ex
           /\ (utc_now (clock_at E (clock_reads w)) <= i ->
               Experiment.status ex = Some "Live")
           /\ (i < utc_now (clock_at E (clock_reads w)) ->
               Experiment.status ex = Some "Complete")).
Proof.
  pose proof (to_experiment_status E self w) as H. cbv zeta in H.
  split.
  - intros Hnone. rewrite Hnone in H. exact H.
  - intros d i Hd Hi. rewrite Hd in H. destruct (H i Hi) as (ex & Hex & Hst).
    exists ex. split; [exact Hex|]. rewrite Hst, Hutc, Z.add_0_r.
    destruct (Z.leb_spec (utc_now (clock_at E (clock_reads w))) i);
      split; intros; try lia; reflexivity.
Qed.

End Layout.

(* ================================================================== *)
(** ** The properties above on concrete inputs *)

Section Runs3.

Import ExperimentCollection Samples MoreSamples.

Lemma has_keyb_has_key (k : string) (d : json) :
  has_keyb k d = true -> has_key k d.
Proof.
  destruct d as [| | | | |fields]; simpl; try discriminate.
  destruct (lookup k fields) as [v|] eqn:Hl; [|discriminate].
  intros _. exists fields, v. auto.
Qed.

Lemma keyed_batch (items : list json) :
  forallb (fun d => has_keyb "type" d && has_keyb "slug" d) items = true ->
  Forall (fun d => has_key "type" d /\ has_key "slug" d) items.
Proof.
  intros H. apply Forall_forall. intros d Hd.
  rewrite forallb_forall in H. specialize (H d Hd).
  apply andb_true_iff in H. destruct H as [H1 H2].
  split; apply has_keyb_has_key; assumption.
Qed.

Lemma X4_started_since_witness :
  (forall ex,
      In ex [ExperimentV1.to_experiment legacy_decoded]
      <-> In ex [ExperimentV1.to_experiment legacy_decoded] /\ launched ex
          /\ exists d i, Experiment.start_date ex = Some d
                         /\ instant d = Some i /\ 0 <= i)
  /\ (exists keep,
         [ExperimentV1.to_experiment legacy_decoded]
         = filter keep [ExperimentV1.to_experiment legacy_decoded])
  /\ (forall ex, Experiment.start_date ex = None ->
         ~ In ex [ExperimentV1.to_experiment legacy_decoded]).
Proof.
  apply (X4_started_since [ExperimentV1.to_experiment legacy_decoded]
           [ExperimentV1.to_experiment legacy_decoded] epoch 0).
  - reflexivity.
  - vm_compute. reflexivity.
Defined.

Lemma X5_end_on_or_after_witness :
  (forall ex,
      In ex [ExperimentV1.to_experiment legacy_decoded]
      <-> In ex [ExperimentV1.to_experiment legacy_decoded] /\ launched ex
          /\ (Experiment.end_date ex = None
              \/ exists d i, Experiment.end_date ex = Some d
                             /\ instant d = Some i /\ 0 <= i))
  /\ (exists keep,
         [ExperimentV1.to_experiment legacy_decoded]
         = filter keep [ExperimentV1.to_experiment legacy_decoded])
  /\ (forall ex,
         In ex [ExperimentV1.to_experiment legacy_decoded] -> launched ex ->
         Experiment.end_date ex = None ->
         In ex [ExperimentV1.to_experiment legacy_decoded]).
Proof.
  apply (X5_end_on_or_after [ExperimentV1.to_experiment legacy_decoded]
           [ExperimentV1.to_experiment legacy_decoded] epoch 0).
  - reflexivity.
  - vm_compute. reflexivity.
Defined.

Lemma X8_legacy_dates_witness :
  (forall dt,
      Experiment.start_date (ExperimentV1.to_experiment legacy_decoded) = Some dt
      \/ Experiment.end_date (ExperimentV1.to_experiment legacy_decoded) = Some dt ->
      utcoffset dt = Some 0 /\ min_us <= wall_us dt <= max_us)
  /\ (forall bound,
         aware bound = true ->
         is_ok (started_cond bound (ExperimentV1.to_experiment legacy_decoded)) = true
         /\ is_ok (ending_cond bound (ExperimentV1.to_experiment legacy_decoded))
            = true).
Proof.
  apply (X8_legacy_dates legacy_record legacy_decoded).
  vm_compute. reflexivity.
Defined.

Lemma X10_naive_end_date_witness :
  ExperimentV6.from_dict date_only_record = Ok date_only_decoded
  /\ ExperimentV6.to_experiment unreachable date_only_decoded start
     = (Raise TypeError, snd (read_clock unreachable start)).
Proof.
  split; [vm_compute; reflexivity|].
  apply (X10_naive_end_date unreachable date_only_decoded start
           {| wall_us := 1625011200 * us_per_second; utcoffset := None |});
    reflexivity.
Defined.

Lemma X11_date_only_is_naive_witness :
  aware {| wall_us := 1625011200 * us_per_second; utcoffset := None |} = false
  /\ instant {| wall_us := 1625011200 * us_per_second; utcoffset := None |} = None.
Proof.
  apply (X11_date_only_is_naive "2021-06-30").
  - reflexivity.
  - reflexivity.
  - vm_compute. reflexivity.
Defined.

Lemma X14_legacy_batch_witness :
  legacy_loop legacy_batch [] start
    = (Ok ([] ++ legacy_results legacy_batch)%list, after_legacy legacy_batch start)
  /\ (List.length (legacy_results legacy_batch)
      + List.length (legacy_failures legacy_batch)
      = List.length (filter not_rapid legacy_batch))%nat.
Proof.
  apply (X14_legacy_batch legacy_batch [] start).
  apply keyed_batch. reflexivity.
Defined.

Lemma X16_legacy_endpoint_down_witness :
  from_experimenter unreachable start
  = (Raise (Exception ("Too many retries for " ++ EXPERIMENTER_API_URL_V1)),
     after_attempts EXPERIMENTER_API_URL_V1 3 3 start).
Proof.
  apply (X16_legacy_endpoint_down unreachable start).
  intros j Hj. reflexivity.
Defined.

Lemma X17_nimbus_endpoint_down_witness :
  from_experimenter legacy_only start
  = (Raise (Exception ("Too many retries for " ++ EXPERIMENTER_API_URL_V6)),
     after_attempts EXPERIMENTER_API_URL_V6 3 3
       (after_legacy [legacy_record]
          (after_attempts EXPERIMENTER_API_URL_V1 1 0 start))).
Proof.
  apply (X17_nimbus_endpoint_down legacy_only start [legacy_record]).
  - reflexivity.
  - apply keyed_batch. reflexivity.
  - intros j Hj. reflexivity.
Defined.

Lemma X18_not_a_batch_witness :
  from_experimenter failing_server start
  = (Raise TypeError, after_attempts EXPERIMENTER_API_URL_V1 1 0 start).
Proof.
  apply (X18_not_a_batch failing_server start error_document); reflexivity.
Defined.

Lemma X19_collection_layout_witness :
  exists nimbus legacy,
    mixed_collection = (nimbus ++ legacy)%list
    /\ Forall nimbus_shape nimbus
    /\ Forall legacy_shape legacy
    /\ ever_launched nimbus = nimbus
    /\ of_type nimbus (OneType "v6") = nimbus.
Proof.
  apply (X19_collection_layout mixed_service start
           (snd (from_experimenter mixed_service start))).
  vm_compute. reflexivity.
Defined.

Lemma X20_status_on_utc_machine_witness :
  (ExperimentV6.endDate ending_soon_decoded = None ->
   exists ex,
     fst (ExperimentV6.to_experiment mixed_service ending_soon_decoded start) = Ok ex
     /\ Experiment.status ex = Some "Live")
  /\ (forall d i,
         ExperimentV6.endDate ending_soon_decoded = Some d -> instant d = Some i ->
         exists ex,
           fst (ExperimentV6.to_experiment mixed_service ending_soon_decoded start)
             = Ok ex
           /\ (utc_now (clock_at mixed_service (clock_reads start)) <= i ->
               Experiment.status ex = Some "Live")
           /\ (i < utc_now (clock_at mixed_service (clock_reads start)) ->
               Experiment.status ex = Some "Complete")).
Proof.
  apply (X20_status_on_utc_machine mixed_service ending_soon_decoded start).
  reflexivity.
Defined.

End Runs3.

(* ================================================================== *)
(** ** From the JSON record to the experiment *)

Section EndToEnd.

Import ExperimentCollection Samples MoreSamples.

(** X21.  A V6 record that decodes and converts gives an experiment whose
    [normandy_slug] is the record's slug, whose proposed enrollment is the
    record's integer, whose reference branch is the record's string, or
    [None] for null, and whose dates, branches and probe sets are the
    decoded ones. *)
Theorem X21_nimbus_record (E : env) (d : json) (self : ExperimentV6.t)
    (w : world) (ex : Experiment.t)
    (Hdecoded : ExperimentV6.from_dict d = Ok self)
    (Hconverted : fst (ExperimentV6.to_experiment E self w) = Ok ex) :
  (exists v, getitem d "slug" = Ok v /\ Experiment.normandy_slug ex = Some (str v))
  /\ (forall n, getitem d "proposedEnrollment" = Ok (JInt n) ->
        Experiment.proposed_enrollment ex = Some n)
  /\ (getitem d "referenceBranch" = Ok JNull -> Experiment.reference_branch ex = None)
  /\ (forall s, getitem d "referenceBranch" = Ok (JStr s) ->
        Experiment.reference_branch ex = Some s)
  /\ (getitem d "endDate" = Ok JNull ->
      Experiment.end_date ex = None /\ Experiment.status ex = Some "Live")
  /\ Experiment.start_date ex = ExperimentV6.startDate self
  /\ Experiment.end_date ex = ExperimentV6.endDate self
  /\ Experiment.branches ex = ExperimentV6.branches self
  /\ Experiment.probe_sets ex = ExperimentV6.probeSets self.
Proof.
  destruct (from_dict_v6_inv d self Hdecoded)
    as ((vs & Hvs & Hslug) & _ & _ & (ve & Hve & Hend) & (vp & Hvp & Hint)
        & (vr & Hvr & Href) & _).
  assert (Hex : Experiment.normandy_slug ex = Some (ExperimentV6.slug self)
                /\ Experiment.proposed_enrollment ex
                   = Some (ExperimentV6.proposedEnrollment self)
                /\ Experiment.reference_branch ex = ExperimentV6.referenceBranch self
                /\ Experiment.start_date ex = ExperimentV6.startDate self
                /\ Experiment.end_date ex = ExperimentV6.endDate self
                /\ Experiment.branches ex = ExperimentV6.branches self
                /\ Experiment.probe_sets ex = ExperimentV6.probeSets self
                /\ (ExperimentV6.endDate self = None ->
                    Experiment.status ex = Some "Live")).
  { revert Hconverted.
    unfold ExperimentV6.to_experiment, ExperimentV6.status_of, bind, read_clock,
      lift, utc_localize, now, ge, ret.
    destruct (ExperimentV6.endDate self) as [dt|]; simpl.
    - destruct (utcoffset dt); simpl; [|discriminate].
      intros H. injection H as <-. simpl. repeat split. discriminate.
    - intros H. injection H as <-. simpl. repeat split. }
  destruct Hex as (H1 & H2 & H3 & H4 & H5 & H6 & H7 & H8).
  split; [exists vs; rewrite H1, Hslug; auto|].
  split; [intros n Hn; rewrite Hn in Hvp; injection Hvp as <-;
          simpl in Hint; congruence|].
  split; [intros Hn; rewrite Hn in Hvr; injection Hvr as <-;
          simpl in Href; congruence|].
  split; [intros s Hs; rewrite Hs in Hvr; injection Hvr as <-;
          simpl in Href; congruence|].
  split; [|auto].
  intros Hn. rewrite Hn in Hve. injection Hve as <-.
  simpl in Hend. injection Hend as Hend. symmetry in Hend.
  split; [rewrite H5; exact Hend | apply H8; exact Hend].
Qed.

Lemma from_dict_v1_normandy (d : json) (self : ExperimentV1.t) :
  ExperimentV1.from_dict d = Ok self ->
  exists g, field (structure_optional structure_str) d "normandy_slug" = Ok g
            /\ ExperimentV1.normandy_slug self = with_default None g.
Proof.
  unfold ExperimentV1.from_dict. intros H. peel H. injection H as <-. simpl. eauto.
Qed.

(** X22.  A legacy record that decodes converts to an experiment whose
    [experimenter_slug], type and status are the record's slug, type and
    status, and whose [normandy_slug] is the record's string, or [None]
    when the key is missing or null. *)
Theorem X22_legacy_record (d : json) (self : ExperimentV1.t)
    (Hdecoded : ExperimentV1.from_dict d = Ok self) :
  let ex := ExperimentV1.to_experiment self in
  (exists v, getitem d "slug" = Ok v /\ Experiment.experimenter_slug ex = Some (str v))
  /\ (exists v, getitem d "type" = Ok v /\ Experiment.type ex = str v)
  /\ (exists v, getitem d "status" = Ok v /\ Experiment.status ex = Some (str v))
  /\ (forall k, getitem d "normandy_slug" = Raise (KeyError k) ->
        Experiment.normandy_slug ex = None)
  /\ (getitem d "normandy_slug" = Ok JNull -> Experiment.normandy_slug ex = None)
  /\ (forall s, getitem d "normandy_slug" = Ok (JStr s) ->
        Experiment.normandy_slug ex = Some s).
Proof.
  destruct (from_dict_v1_inv d self Hdecoded)
    as ((vs & Hvs & Hslug) & (vt & Hvt & Hstatus) & _).
  destruct (from_dict_v1_fields d self Hdecoded) as ((ty & Hty & Htype) & _).
  destruct (from_dict_v1_normandy d self Hdecoded) as (g & Hg & Hn).
  simpl. rewrite Hslug, Htype, Hstatus, Hn. unfold field in Hg.
  split; [eauto|]. split; [eauto|]. split; [eauto|].
  split; [|split].
  - intros k Hk. rewrite Hk in Hg. injection Hg as <-. reflexivity.
  - intros Hk. rewrite Hk in Hg. simpl in Hg. injection Hg as <-. reflexivity.
  - intros s Hk. rewrite Hk in Hg. simpl in Hg. injection Hg as <-. reflexivity.
Qed.

Lemma nimbus_loop_length (E : env) (items : list json) :
  forall (acc res : list Experiment.t) (w w' : world),
    nimbus_loop E items acc w = (Ok res, w') ->
    (List.length res <= List.length acc + List.length items)%nat.
Proof.
  induction items as [|d rest IH]; intros acc res w w' Hrun.
  - simpl in Hrun. injection Hrun as <- _. simpl. lia.
  - rewrite nimbus_loop_cons in Hrun. simpl.
    destruct (ExperimentV6.from_dict d) as [v6|e].
    + destruct (ExperimentV6.to_experiment E v6 (noted "ExperimentV6" d w))
        as [[ex|e] w1].
      * apply IH in Hrun. rewrite length_app in Hrun. simpl in Hrun. lia.
      * unfold on_failure in Hrun.
        destruct (getitem d "slug"); [apply IH in Hrun; lia | discriminate].
    + unfold on_failure in Hrun.
      destruct (getitem d "slug"); [apply IH in Hrun; lia | discriminate].
Qed.

(** What converting a decoded V6 record does, case by case. *)
Lemma to_experiment_run (E : env) (self : ExperimentV6.t) (w : world) :
  ExperimentV6.to_experiment E self w
  = match ExperimentV6.endDate self with
    | None => (Ok (nimbus_experiment self "Live"), w)
    | Some dt =>
        match instant dt with
        | None => (Raise TypeError, snd (read_clock E w))
        | Some i =>
            let c := clock_at E (clock_reads w) in
            (Ok (nimbus_experiment self
                   (if (utc_now c + local_utcoffset c <=? i)%Z
                    then "Live" else "Complete")),
             snd (read_clock E w))
        end
    end.
Proof.
  unfold ExperimentV6.to_experiment, ExperimentV6.status_of, nimbus_experiment.
  destruct (ExperimentV6.endDate self) as [dt|]; [|reflexivity].
  unfold instant, bind, read_clock, lift, utc_localize, now, ge, ret. simpl.
  destruct (utcoffset dt) as [off|]; simpl; [|reflexivity].
  rewrite Z.sub_0_r. reflexivity.
Qed.

(** On a batch whose records all carry their slug, the V6 loop returns
    the experiments that [nimbus_results] describes. *)
Lemma nimbus_loop_run (E : env) (items : list json) :
  Forall (has_key "slug") items ->
  forall (acc : list Experiment.t) (w : world),
    fst (nimbus_loop E items acc w)
    = Ok (acc ++ nimbus_results E (clock_reads w) items)%list.
Proof.
  induction 1 as [|d rest Hslug _ IH]; intros acc w.
  - simpl. rewrite app_nil_r. reflexivity.
  - rewrite nimbus_loop_cons. simpl nimbus_results.
    destruct (has_key_getitem _ _ Hslug) as (slug & Hs).
    destruct (ExperimentV6.from_dict d) as [v6|e].
    + rewrite to_experiment_run.
      destruct (ExperimentV6.endDate v6) as [dt|].
      * destruct (instant dt) as [i|]; cbv beta iota zeta.
        -- rewrite IH, <- app_assoc. reflexivity.
        -- unfold on_failure. rewrite Hs, IH. reflexivity.
      * cbv beta iota. rewrite IH, <- app_assoc. reflexivity.
    + unfold on_failure. rewrite Hs, IH. reflexivity.
Qed.

(** Every record of the batch that decodes, and whose end date is
    missing or carries an offset, has its experiment in the results. *)
Lemma nimbus_results_In (E : env) (items : list json) (d : json)
    (v6 : ExperimentV6.t) :
  In d items ->
  ExperimentV6.from_dict d = Ok v6 ->
  (ExperimentV6.endDate v6 = None
   \/ exists dt i, ExperimentV6.endDate v6 = Some dt /\ instant dt = Some i) ->
  forall reads,
    exists status,
      (status = "Live" \/ status = "Complete")
      /\ In (nimbus_experiment v6 status) (nimbus_results E reads items).
Proof.
  intros Hin Hdec Hend.
  induction items as [|x rest IH]; [destruct Hin|]. intros reads.
  destruct Hin as [-> | Hin].
  - simpl. rewrite Hdec.
    destruct Hend as [Hnone | (dt & i & Hdt & Hi)].
    + rewrite Hnone. exists "Live". split; [auto | left; reflexivity].
    + rewrite Hdt, Hi. cbv zeta.
      destruct (_ <=? _)%Z; eexists; (split; [|left; reflexivity]); auto.
  - simpl. destruct (ExperimentV6.from_dict x) as [vx|e]; [|apply IH; exact Hin].
    destruct (ExperimentV6.endDate vx) as [dx|].
    + destruct (instant dx) as [ix|].
      * destruct (IH Hin (S reads)) as (st & Hst & Hex).
        exists st. split; [exact Hst | right; exact Hex].
      * apply IH. exact Hin.
    + destruct (IH Hin reads) as (st & Hst & Hex).
      exists st. split; [exact Hst | right; exact Hex].
Qed.

(** X23.  When both endpoints answer their first request with a list
    whose records all carry the keys the loops read outside the decoder
    ([type] and [slug] for legacy records, [slug] for V6 records),
    [from_experimenter] returns a collection whatever else is wrong with
    the records.  The collection is exactly the conversions of the V6
    records, in their order, followed by the conversions of the legacy
    records that are not of type ["rapid"] and decode.  A V6 record is
    converted whenever it decodes and its end date is missing or carries
    an offset. *)
Theorem X23_keyed_batches_survive (E : env) (w : world) (legacy nimbus : list json)
    (Hlegacy : attempt E EXPERIMENTER_API_URL_V1 w 0 = Ok (JArr legacy))
    (Hnimbus : attempt E EXPERIMENTER_API_URL_V6 w 1 = Ok (JArr nimbus))
    (Hkeys1 : Forall (fun d => has_key "type" d /\ has_key "slug" d) legacy)
    (Hkeys6 : Forall (has_key "slug") nimbus) :
  fst (from_experimenter E w)
    = Ok (nimbus_results E (clock_reads w) nimbus ++ legacy_results legacy)%list
  /\ (forall d v6,
         In d nimbus ->
         ExperimentV6.from_dict d = Ok v6 ->
         (ExperimentV6.endDate v6 = None
          \/ exists dt i, ExperimentV6.endDate v6 = Some dt /\ instant dt = Some i) ->
         exists status,
           (status = "Live" \/ status = "Complete")
           /\ In (nimbus_experiment v6 status)
                 (nimbus_results E (clock_reads w) nimbus)).
Proof.
  split.
  - unfold from_experimenter, bind at 1, _retry_get, MAX_RETRIES.
    rewrite (retry_loop_succeeded E EXPERIMENTER_API_URL_V1 2 w (JArr legacy) Hlegacy).
    unfold bind at 1, lift at 1. simpl iter. cbv iota beta.
    unfold bind at 1. rewrite (legacy_loop_run legacy Hkeys1).
    unfold bind at 1.
    rewrite (retry_loop_succeeded E EXPERIMENTER_API_URL_V6 2 _ (JArr nimbus)).
    + unfold bind at 1, lift at 1. simpl iter. cbv iota beta.
      unfold bind at 1.
      match goal with
      | |- context [nimbus_loop E nimbus [] ?w3] =>
          pose proof (nimbus_loop_run E nimbus Hkeys6 [] w3) as Hres;
          destruct (nimbus_loop E nimbus [] w3) as [[res|e] w4];
          simpl in Hres; [|discriminate]
      end.
      injection Hres as ->. reflexivity.
    + rewrite <- Hnimbus. unfold attempt. simpl. rewrite length_app. simpl.
      rewrite Nat.add_0_r. reflexivity.
  - intros d v6 Hin Hdec Hend.
    apply (nimbus_results_In E nimbus d v6 Hin Hdec Hend).
Qed.

Lemma X21_nimbus_record_witness :
  exists v,
    getitem ending_soon "slug" = Ok v
    /\ Experiment.normandy_slug
         {| Experiment.experimenter_slug := None;
            Experiment.normandy_slug := Some "soon";
            Experiment.type := "v6";
            Experiment.status := Some "Live";
            Experiment.branches := ExperimentV6.branches ending_soon_decoded;
            Experiment.probe_sets := [];
            Experiment.start_date := ExperimentV6.startDate ending_soon_decoded;
            Experiment.end_date := ExperimentV6.endDate ending_soon_decoded;
            Experiment.proposed_enrollment := Some 7;
            Experiment.reference_branch := Some "control";
            Experiment.is_high_population := false |}
       = Some (str v).
Proof.
  apply (X21_nimbus_record mixed_service ending_soon ending_soon_decoded start).
  - vm_compute. reflexivity.
  - vm_compute. reflexivity.
Defined.

Lemma X22_legacy_record_witness :
  exists v,
    getitem legacy_record "slug" = Ok v
    /\ Experiment.experimenter_slug (ExperimentV1.to_experiment legacy_decoded)
       = Some (str v).
Proof.
  apply (X22_legacy_record legacy_record legacy_decoded).
  vm_compute. reflexivity.
Defined.

Lemma X23_keyed_batches_survive_witness :
  fst (from_experimenter mixed_service start)
    = Ok (nimbus_results mixed_service (clock_reads start) [nimbus_record "open" JNull]
          ++ legacy_results [rapid_record; legacy_record])%list
  /\ (forall d v6,
         In d [nimbus_record "open" JNull] ->
         ExperimentV6.from_dict d = Ok v6 ->
         (ExperimentV6.endDate v6 = None
          \/ exists dt i, ExperimentV6.endDate v6 = Some dt /\ instant dt = Some i) ->
         exists status,
           (status = "Live" \/ status = "Complete")
           /\ In (nimbus_experiment v6 status)
                 (nimbus_results mixed_service (clock_reads start)
                    [nimbus_record "open" JNull])).
Proof.
  apply (X23_keyed_batches_survive mixed_service start).
  - reflexivity.
  - reflexivity.
  - apply keyed_batch. reflexivity.
  - repeat constructor; apply has_keyb_has_key; reflexivity.
Defined.

End EndToEnd.
